(** * tflearn/data_flow.py: the batched data-feeding pipeline

    A shallow embedding of [DataFlow], [FeedDictFlow] and [DataFlowStatus]
    with the properties of the pipeline stated over it.

    Python integers are unbounded, so they are [Z].  A method that mutates
    [self] becomes a function from the object's state to an [outcome] that
    carries the state the method leaves behind, whether it returns, raises
    or is suspended in a blocking queue operation. *)

From Stdlib Require Import ZArith List Bool Lia.
From Stdlib Require String.
Import ListNotations.
Open Scope Z_scope.

(** ** Python and numpy values the module works with *)

Module Py.

(** The exceptions the modelled code can raise. *)
Inductive exn : Type :=
| IndexError
| KeyError
| TypeError
| ValueError
| AxisError
| AttributeError
| AssertionError
| QueueEmpty
| TransformError.

(** [l[i]] with Python's negative indices: [l[-1]] is the last element,
    anything outside [-len l, len l) raises [IndexError] ([None] here). *)
Definition getitem {A : Type} (l : list A) (i : Z) : option A :=
  let n := Z.of_nat (length l) in
  if (0 <=? i) && (i <? n) then nth_error l (Z.to_nat i)
  else if (- n <=? i) && (i <? 0) then nth_error l (Z.to_nat (i + n))
  else None.

(** [a[ind]] for an integer index vector [ind]: numpy picks [a[i]] for each
    [i] of [ind], negative indices wrapping as above, and raises
    [IndexError] when one of them is out of bounds. *)
Fixpoint take {A : Type} (l : list A) (ind : list Z) : option (list A) :=
  match ind with
  | [] => Some []
  | i :: ind' =>
      match getitem l i, take l ind' with
      | Some x, Some xs => Some (x :: xs)
      | _, _ => None
      end
  end.

(** The array-likes a feed dict holds.  A vector has one axis and a matrix
    two (a list of rows).  An array of more axes is given by the shape
    [inner] of its sub-arrays along the leading axis and, for each of
    them, its entries in row-major order: it has [1 + length inner] axes.
    Entries are integers; only their order matters to [argmax]. *)
Inductive ndarray : Type :=
| Vec (xs : list Z)
| Mat (rows : list (list Z))
| Tensor (inner : list nat) (blocks : list (list Z)).

(** [a.ndim]: the number of axes. *)
Definition ndim (a : ndarray) : nat :=
  match a with
  | Vec _ => 1
  | Mat _ => 2
  | Tensor inner _ => S (length inner)
  end.

(** [len(a)]: the leading dimension. *)
Definition len (a : ndarray) : Z :=
  match a with
  | Vec xs => Z.of_nat (length xs)
  | Mat rows => Z.of_nat (length rows)
  | Tensor _ blocks => Z.of_nat (length blocks)
  end.

(** [a[ids]]: selection along the leading axis. *)
Definition index (a : ndarray) (ids : list Z) : option ndarray :=
  match a with
  | Vec xs => option_map Vec (take xs ids)
  | Mat rows => option_map Mat (take rows ids)
  | Tensor inner blocks => option_map (Tensor inner) (take blocks ids)
  end.

(** Position of the first maximum of a row; an empty row has none. *)
Fixpoint argmax_from (best_pos best : Z) (pos : Z) (xs : list Z) : Z :=
  match xs with
  | [] => best_pos
  | x :: xs' =>
      if best <? x then argmax_from pos x (pos + 1) xs'
      else argmax_from best_pos best (pos + 1) xs'
  end.

Definition argmax_row (xs : list Z) : option Z :=
  match xs with
  | [] => None
  | x :: xs' => Some (argmax_from 0 x 1 xs')
  end.

Fixpoint argmax_rows (rows : list (list Z)) : option (list Z) :=
  match rows with
  | [] => Some []
  | r :: rows' =>
      match argmax_row r, argmax_rows rows' with
      | Some p, Some ps => Some (p :: ps)
      | _, _ => None
      end
  end.

(** The array of the sub-arrays [blocks] of shape [inner], in the form the
    number of its axes calls for. *)
Definition array_of (inner : list nat) (blocks : list (list Z)) : ndarray :=
  match inner with
  | [] => Vec (concat blocks)
  | [_] => Mat blocks
  | _ => Tensor inner blocks
  end.

(** In a sub-array of shape [m :: rest] with [R] entries per step along
    its first axis, the [m] entries that differ only in that first index,
    at offset [r]. *)
Definition column (m R : nat) (block : list Z) (r : nat) : list Z :=
  map (fun j => nth (j * R + r) block 0) (seq 0 m).

(** The argmax along the first axis of such a sub-array, offset by
    offset. *)
Definition argmax_block (m R : nat) (block : list Z) : option (list Z) :=
  argmax_rows (map (column m R block) (seq 0 R)).

Fixpoint argmax_blocks (m R : nat) (blocks : list (list Z))
  : option (list (list Z)) :=
  match blocks with
  | [] => Some []
  | b :: blocks' =>
      match argmax_block m R b, argmax_blocks m R blocks' with
      | Some ps, Some pss => Some (ps :: pss)
      | _, _ => None
      end
  end.

(** [a.argmax(1)]: a vector has no axis 1 ([AxisError]); an array whose
    axis 1 is empty has nothing to take the maximum of ([ValueError]);
    otherwise the result has the axes of [a] but axis 1. *)
Definition argmax1 (a : ndarray) : exn + ndarray :=
  match a with
  | Vec _ => inl AxisError
  | Mat rows =>
      match argmax_rows rows with
      | Some ps => inr (Vec ps)
      | None => inl ValueError
      end
  | Tensor inner blocks =>
      match inner with
      | [] => inl AxisError
      | O :: _ => inl ValueError
      | m :: rest =>
          match argmax_blocks m (fold_right Nat.mul 1%nat rest) blocks with
          | Some pss => inr (array_of rest pss)
          | None => inl ValueError
          end
      end
  end.

(** [np.arange(n)]. *)
Definition arange (n : Z) : list Z :=
  map Z.of_nat (seq 0 (Z.to_nat n)).

(** What travels through a [queue.Queue] of this module: a value, or the
    [False] the code puts to say that nothing more will come. *)
Inductive msg (A : Type) : Type :=
| Item (a : A)
| Sentinel.
Arguments Item {A} a.
Arguments Sentinel {A}.

(** [queue.Queue(maxsize)]: FIFO, bounded when [maxsize > 0]. *)
Record Queue (A : Type) : Type := mkQueue {
  maxsize : Z;
  items : list (msg A)
}.
Arguments mkQueue {A} _ _.
Arguments maxsize {A} _.
Arguments items {A} _.

Definition empty {A : Type} (q : Queue A) : bool :=
  match items q with [] => true | _ => false end.

Definition full {A : Type} (q : Queue A) : bool :=
  (0 <? maxsize q) && (maxsize q <=? Z.of_nat (length (items q))).

(** [q.put(x)]: [None] when the queue is full and the caller has to wait. *)
Definition put {A : Type} (q : Queue A) (x : msg A) : option (Queue A) :=
  if full q then None else Some (mkQueue (maxsize q) (items q ++ [x])).

(** [q.get()]: [None] when the queue is empty and the caller has to wait. *)
Definition get {A : Type} (q : Queue A) : option (msg A * Queue A) :=
  match items q with
  | [] => None
  | x :: rest => Some (x, mkQueue (maxsize q) rest)
  end.

End Py.

(** ** DataFlowStatus *)

Module DataFlowStatus.

Record t : Type := mk {
  step : Z;
  epoch : Z;
  current_iter : Z;
  batch_size : Z;
  n_samples : Z
}.

Definition with_step (self : t) (v : Z) : t :=
  mk v (epoch self) (current_iter self) (batch_size self) (n_samples self).
Definition with_epoch (self : t) (v : Z) : t :=
  mk (step self) v (current_iter self) (batch_size self) (n_samples self).
Definition with_current_iter (self : t) (v : Z) : t :=
  mk (step self) (epoch self) v (batch_size self) (n_samples self).

(** [DataFlowStatus.__init__] *)
Definition init (batch_size n_samples : Z) : t :=
  mk 0 0 0 batch_size n_samples.

(** [DataFlowStatus.update] *)
Definition update (self : t) : t :=
  let self := with_step self (step self + 1) in
  let self :=
    with_current_iter self (Z.min (step self * batch_size self) (n_samples self)) in
  if current_iter self =? n_samples self then
    let self := with_epoch self (epoch self + 1) in
    with_step self 0
  else self.

(** [DataFlowStatus.reset] *)
Definition reset (self : t) : t :=
  let self := with_step self 0 in
  with_epoch self 0.

End DataFlowStatus.

(** ** Dictionaries

    A feed dict is used both as a mapping ([feed_dict[key]], [for key in
    feed_dict]) and through the order of its values ([feed_dict.values()[1]]),
    so it is an association list in the dict's iteration order. *)

Definition key : Type := String.string.

Definition dict (V : Type) : Type := list (key * V).

Definition values {V : Type} (d : dict V) : list V := map snd d.

(** [d[k]]; [None] stands for [KeyError]. *)
Fixpoint dict_get {V : Type} (d : dict V) (k : key) : option V :=
  match d with
  | [] => None
  | (k', v) :: d' => if String.eqb k k' then Some v else dict_get d' k
  end.

(** [d[k] = v]: an existing key keeps its place, a new one goes last. *)
Fixpoint dict_set {V : Type} (d : dict V) (k : key) (v : V) : dict V :=
  match d with
  | [] => [(k, v)]
  | (k', v') :: d' =>
      if String.eqb k k' then (k', v) :: d' else (k', v') :: dict_set d' k v
  end.

(** ** tflearn/utils.py, the helpers [data_flow.py] calls *)

Module Utils.

(** The integers [a, a+1, ..., b-1]. *)
Definition range (a b : Z) : list Z :=
  map (fun k => a + k) (Py.arange (b - a)).

(** Modelled from the spec: [utils.make_batches] is not in src/.  Spec 4.1:
    a deterministic contiguous partition of [0, n_samples) into fixed-size
    ranges, the last one possibly shorter; spec 3: each batch is an ordered
    sequence of positions into the sample index array.  The spec speaks of
    [batch_size > 0] only; there is no batch for any other [batch_size]
    here. *)
Definition make_batches (n_samples batch_size : Z) : list (list Z) :=
  if batch_size <=? 0 then []
  else
    map (fun i => range (i * batch_size) (Z.min n_samples ((i + 1) * batch_size)))
        (Py.arange ((n_samples + batch_size - 1) / batch_size)).

(** Modelled from the spec: [utils.get_dict_first_element] is not in src/.
    The value of the dict's first key; the row count of the dataset is read
    from it (spec 3).  An empty dict has no first element and [len] of what
    comes back fails. *)
Definition get_dict_first_element {V : Type} (d : dict V) : option V :=
  match d with
  | [] => None
  | (_, v) :: _ => Some v
  end.

(** Modelled from the spec: [utils.slice_array] is not in src/.  Spec 4.3:
    each dataset key is sliced by the index batch. *)
Definition slice_array (X : Py.ndarray) (batch_ids : list Z) : option Py.ndarray :=
  Py.index X batch_ids.

End Utils.

(** ** DataFlow and FeedDictFlow *)

Module FeedDictFlow.

(** A [DataPreprocessing] or [DataAugmentation] object: all the pipeline
    asks of it is [apply], which may raise. *)
Record transform : Type := mkTransform {
  apply : Py.ndarray -> option Py.ndarray
}.

(** The two loops a pipeline thread can run, and the life of a thread. *)
Inductive target : Type :=
| fill_batch_ids_queue_target
| fill_feed_dict_queue_target.

Inductive thread_status : Type :=
| Alive
| Suspended
| Finished
| Died (e : Py.exn).

Record thread : Type := mkThread {
  thread_target : target;
  status : thread_status
}.

(** The attributes of a [FeedDictFlow] object.  [coord_should_stop] is what
    [self.coord.should_stop()] answers; [threads] is [None] until [start]
    sets the attribute; [waiters] are the anonymous threads [stop] launches
    on [wait_for_threads]; [np_random] counts the draws made from numpy's
    global generator. *)
Record t : Type := mk {
  coord_should_stop : bool;
  num_threads : Z;
  max_queue : Z;
  shuffle : bool;
  continuous : bool;
  dprep_dict : option (dict transform);
  daug_dict : option (dict transform);
  interrupted : bool;
  feed_dict : dict Py.ndarray;
  batch_size : Z;
  n_samples : Z;
  balanced_classes : bool;
  batch_ids_queue : Py.Queue (list Z);
  feed_dict_queue : Py.Queue (dict Py.ndarray);
  index_array : list Z;
  batches : list (list Z);
  batch_index : Z;
  data_status : DataFlowStatus.t;
  threads : option (list thread);
  waiters : list thread_status;
  np_random : nat
}.

Definition with_coord_should_stop (self : t) (v : bool) : t :=
  mk v (num_threads self) (max_queue self) (shuffle self) (continuous self)
     (dprep_dict self) (daug_dict self) (interrupted self) (feed_dict self)
     (batch_size self) (n_samples self) (balanced_classes self)
     (batch_ids_queue self) (feed_dict_queue self) (index_array self)
     (batches self) (batch_index self) (data_status self) (threads self)
     (waiters self) (np_random self).
Definition with_interrupted (self : t) (v : bool) : t :=
  mk (coord_should_stop self) (num_threads self) (max_queue self)
     (shuffle self) (continuous self) (dprep_dict self) (daug_dict self) v
     (feed_dict self) (batch_size self) (n_samples self)
     (balanced_classes self) (batch_ids_queue self) (feed_dict_queue self)
     (index_array self) (batches self) (batch_index self) (data_status self)
     (threads self) (waiters self) (np_random self).
Definition with_batch_ids_queue (self : t) (v : Py.Queue (list Z)) : t :=
  mk (coord_should_stop self) (num_threads self) (max_queue self)
     (shuffle self) (continuous self) (dprep_dict self) (daug_dict self)
     (interrupted self) (feed_dict self) (batch_size self) (n_samples self)
     (balanced_classes self) v (feed_dict_queue self) (index_array self)
     (batches self) (batch_index self) (data_status self) (threads self)
     (waiters self) (np_random self).
Definition with_feed_dict_queue (self : t) (v : Py.Queue (dict Py.ndarray)) : t :=
  mk (coord_should_stop self) (num_threads self) (max_queue self)
     (shuffle self) (continuous self) (dprep_dict self) (daug_dict self)
     (interrupted self) (feed_dict self) (batch_size self) (n_samples self)
     (balanced_classes self) (batch_ids_queue self) v (index_array self)
     (batches self) (batch_index self) (data_status self) (threads self)
     (waiters self) (np_random self).
Definition with_index_array (self : t) (v : list Z) : t :=
  mk (coord_should_stop self) (num_threads self) (max_queue self)
     (shuffle self) (continuous self) (dprep_dict self) (daug_dict self)
     (interrupted self) (feed_dict self) (batch_size self) (n_samples self)
     (balanced_classes self) (batch_ids_queue self) (feed_dict_queue self) v
     (batches self) (batch_index self) (data_status self) (threads self)
     (waiters self) (np_random self).
Definition with_batches (self : t) (v : list (list Z)) : t :=
  mk (coord_should_stop self) (num_threads self) (max_queue self)
     (shuffle self) (continuous self) (dprep_dict self) (daug_dict self)
     (interrupted self) (feed_dict self) (batch_size self) (n_samples self)
     (balanced_classes self) (batch_ids_queue self) (feed_dict_queue self)
     (index_array self) v (batch_index self) (data_status self)
     (threads self) (waiters self) (np_random self).
Definition with_batch_index (self : t) (v : Z) : t :=
  mk (coord_should_stop self) (num_threads self) (max_queue self)
     (shuffle self) (continuous self) (dprep_dict self) (daug_dict self)
     (interrupted self) (feed_dict self) (batch_size self) (n_samples self)
     (balanced_classes self) (batch_ids_queue self) (feed_dict_queue self)
     (index_array self) (batches self) v (data_status self) (threads self)
     (waiters self) (np_random self).
Definition with_data_status (self : t) (v : DataFlowStatus.t) : t :=
  mk (coord_should_stop self) (num_threads self) (max_queue self)
     (shuffle self) (continuous self) (dprep_dict self) (daug_dict self)
     (interrupted self) (feed_dict self) (batch_size self) (n_samples self)
     (balanced_classes self) (batch_ids_queue self) (feed_dict_queue self)
     (index_array self) (batches self) (batch_index self) v (threads self)
     (waiters self) (np_random self).
Definition with_threads (self : t) (v : option (list thread)) : t :=
  mk (coord_should_stop self) (num_threads self) (max_queue self)
     (shuffle self) (continuous self) (dprep_dict self) (daug_dict self)
     (interrupted self) (feed_dict self) (batch_size self) (n_samples self)
     (balanced_classes self) (batch_ids_queue self) (feed_dict_queue self)
     (index_array self) (batches self) (batch_index self) (data_status self)
     v (waiters self) (np_random self).
Definition with_waiters (self : t) (v : list thread_status) : t :=
  mk (coord_should_stop self) (num_threads self) (max_queue self)
     (shuffle self) (continuous self) (dprep_dict self) (daug_dict self)
     (interrupted self) (feed_dict self) (batch_size self) (n_samples self)
     (balanced_classes self) (batch_ids_queue self) (feed_dict_queue self)
     (index_array self) (batches self) (batch_index self) (data_status self)
     (threads self) v (np_random self).
Definition with_np_random (self : t) (v : nat) : t :=
  mk (coord_should_stop self) (num_threads self) (max_queue self)
     (shuffle self) (continuous self) (dprep_dict self) (daug_dict self)
     (interrupted self) (feed_dict self) (batch_size self) (n_samples self)
     (balanced_classes self) (batch_ids_queue self) (feed_dict_queue self)
     (index_array self) (batches self) (batch_index self) (data_status self)
     (threads self) (waiters self) v.

(** *** Methods as state transformers *)

Inductive outcome (A : Type) : Type :=
| Returns (a : A) (self : t)
| Raises (e : Py.exn) (self : t)
| Blocks (self : t).
Arguments Returns {A} a self.
Arguments Raises {A} e self.
Arguments Blocks {A} self.

Definition M (A : Type) : Type := t -> outcome A.

Definition ret {A : Type} (a : A) : M A := fun self => Returns a self.

Definition bind {A B : Type} (m : M A) (k : A -> M B) : M B :=
  fun self =>
    match m self with
    | Returns a self' => k a self'
    | Raises e self' => Raises e self'
    | Blocks self' => Blocks self'
    end.

Definition raise {A : Type} (e : Py.exn) : M A := fun self => Raises e self.
Definition block {A : Type} : M A := fun self => Blocks self.
Definition gets {A : Type} (f : t -> A) : M A := fun self => Returns (f self) self.
Definition modify (f : t -> t) : M unit := fun self => Returns tt (f self).

(** A value that may be missing, the exception to raise when it is. *)
Definition or_raise {A : Type} (e : Py.exn) (o : option A) : M A :=
  match o with
  | Some a => ret a
  | None => raise e
  end.

Definition or_reraise {A : Type} (r : Py.exn + A) : M A :=
  match r with
  | inr a => ret a
  | inl e => raise e
  end.

Declare Scope flow_scope.
Delimit Scope flow_scope with flow.
Notation "x <- m ;; k" := (bind m (fun x => k))
  (at level 100, m at next level, right associativity) : flow_scope.
Notation "m ;;; k" := (bind m (fun _ => k))
  (at level 100, right associativity) : flow_scope.
Local Open Scope flow_scope.

(** The result of one turn of a [while] loop. *)
Inductive loop_ctl : Type := Continue | Break.

(** [while ...: body], for at most [fuel] turns: [Returns Break] when the
    loop has been left, [Returns Continue] when it is still running after
    [fuel] turns. *)
Fixpoint while_loop (fuel : nat) (body : M loop_ctl) : M loop_ctl :=
  match fuel with
  | O => ret Continue
  | S fuel' =>
      c <- body ;;
      match c with
      | Continue => while_loop fuel' body
      | Break => ret Break
      end
  end.

(** *** The methods *)

Section Methods.

(** [np.random.shuffle]: the permutation the [n]-th draw from numpy's global
    generator applies. *)
Variable np_random_shuffle : nat -> list Z -> list Z.

(** [utils.make_balanced_batches(n_samples, batch_size, labels)]: not in
    src/ and left open by the spec (section 9), so any function. *)
Variable utils_make_balanced_batches : Z -> Z -> Py.ndarray -> list (list Z).

(** [while not q.empty(): q.get()] *)
Fixpoint drain {A : Type} (pending : list (Py.msg A)) : list (Py.msg A) :=
  match pending with
  | [] => []
  | _ :: rest => drain rest
  end.

Definition cleared {A : Type} (q : Py.Queue A) : Py.Queue A :=
  Py.mkQueue (Py.maxsize q) (drain (Py.items q)).

(** [clear_queues] *)
Definition clear_queues : M unit :=
  modify (fun self => with_feed_dict_queue self (cleared (feed_dict_queue self))) ;;;
  modify (fun self => with_batch_ids_queue self (cleared (batch_ids_queue self))).

(** [make_batches] *)
Definition make_batches : M (list (list Z)) :=
  gets (fun self => Utils.make_batches (n_samples self) (batch_size self)).

(** [self.feed_dict.values()[1]] *)
Definition second_value : M Py.ndarray :=
  fd <- gets feed_dict ;;
  or_raise Py.IndexError (nth_error (values fd) 1).

(** [make_balanced_batches]; [self.index_array] is never [None]. *)
Definition make_balanced_batches : M (list (list Z)) :=
  y <- second_value ;;
  labels <- or_reraise (Py.argmax1 y) ;;
  ia <- gets index_array ;;
  labels <- or_raise Py.IndexError (Py.index labels ia) ;;
  gets (fun self =>
          utils_make_balanced_batches (n_samples self) (batch_size self) labels).

(** [shuffle_samples] *)
Definition shuffle_samples : M unit :=
  modify (fun self =>
            let self' :=
              with_index_array self
                (np_random_shuffle (np_random self) (index_array self)) in
            with_np_random self' (S (np_random self'))).

(** [reset_batches] *)
Definition reset_batches : M unit :=
  sh <- gets shuffle ;;
  (if sh then
     shuffle_samples ;;;
     b <- make_batches ;;
     modify (fun self => with_batches self b)
   else ret tt) ;;;
  modify (fun self => with_batch_index self (-1)).

(** [reset_balanced_batches] *)
Definition reset_balanced_batches : M unit :=
  sh <- gets shuffle ;;
  (if sh then
     shuffle_samples ;;;
     b <- make_balanced_batches ;;
     modify (fun self => with_batches self b)
   else ret tt) ;;;
  modify (fun self => with_batch_index self (-1)).

(** [for i in range(k): self.batch_ids_queue.put(False)] *)
Fixpoint put_sentinels (k : nat) : M unit :=
  match k with
  | O => ret tt
  | S k' =>
      q <- gets batch_ids_queue ;;
      match Py.put q Py.Sentinel with
      | None => block
      | Some q' =>
          modify (fun self => with_batch_ids_queue self q') ;;;
          put_sentinels k'
      end
  end.

(** [stop]: the sentinels, then a new thread on [wait_for_threads]. *)
Definition stop : M unit :=
  n <- gets num_threads ;;
  put_sentinels (Z.to_nat n) ;;;
  modify (fun self => with_waiters self (waiters self ++ [Alive])).

(** [reset] *)
Definition reset : M unit :=
  modify (fun self => with_batch_index self (-1)).

(** [interrupt] *)
Definition interrupt : M unit :=
  modify (fun self => with_interrupted self true) ;;;
  clear_queues.

(** [self.index_array[np.array(self.batches[self.batch_index])]]: an empty
    batch makes a float array, which numpy refuses as an index. *)
Definition current_batch_ids : M (list Z) :=
  bs <- gets batches ;;
  i <- gets batch_index ;;
  ind <- or_raise Py.IndexError (Py.getitem bs i) ;;
  match ind with
  | [] => raise Py.IndexError
  | _ =>
      ia <- gets index_array ;;
      or_raise Py.IndexError (Py.take ia ind)
  end.

(** [next_batch_ids]: [None] is the [False] of an exhausted plan. *)
Definition next_batch_ids : M (option (list Z)) :=
  modify (fun self => with_batch_index self (batch_index self + 1)) ;;;
  i <- gets batch_index ;;
  bs <- gets batches ;;
  if i =? Z.of_nat (length bs) then
    c <- gets continuous ;;
    if negb c then
      stop ;;;
      ret None
    else
      bal <- gets balanced_classes ;;
      (if bal then reset_balanced_batches else reset_batches) ;;;
      ids <- current_batch_ids ;;
      ret (Some ids)
  else
    ids <- current_batch_ids ;;
    ret (Some ids).

(** [retrieve_data] *)
Fixpoint slice_keys (fd : dict Py.ndarray) (batch_ids : list Z)
    (feed_batch : dict Py.ndarray) : M (dict Py.ndarray) :=
  match fd with
  | [] => ret feed_batch
  | (k, X) :: fd' =>
      y <- or_raise Py.IndexError (Utils.slice_array X batch_ids) ;;
      slice_keys fd' batch_ids (dict_set feed_batch k y)
  end.

Definition retrieve_data (batch_ids : list Z) : M (dict Py.ndarray) :=
  fd <- gets feed_dict ;;
  slice_keys fd batch_ids [].

(** [for k in d: data[k] = d[k].apply(data[k])] *)
Fixpoint apply_all (d : dict transform) (data : dict Py.ndarray)
  : M (dict Py.ndarray) :=
  match d with
  | [] => ret data
  | (k, tr) :: d' =>
      x <- or_raise Py.KeyError (dict_get data k) ;;
      y <- or_raise Py.TransformError (apply tr x) ;;
      apply_all d' (dict_set data k y)
  end.

(** [if d: for k in d: ...]: [None] and the empty dict are both false. *)
Definition apply_if_any (d : option (dict transform)) (data : dict Py.ndarray)
  : M (dict Py.ndarray) :=
  match d with
  | None => ret data
  | Some d' => apply_all d' data
  end.

(** The loop condition of both thread loops. *)
Definition keep_running : M bool :=
  gets (fun self => negb (coord_should_stop self) && negb (interrupted self)).

(** One turn of the loop of [fill_feed_dict_queue]. *)
Definition fill_feed_dict_queue_turn : M loop_ctl :=
  go <- keep_running ;;
  if negb go then ret Break
  else
    q <- gets batch_ids_queue ;;
    match Py.get q with
    | None => block
    | Some (m, q') =>
        modify (fun self => with_batch_ids_queue self q') ;;;
        match m with
        | Py.Sentinel => ret Break
        | Py.Item batch_ids =>
            data <- retrieve_data batch_ids ;;
            daug <- gets daug_dict ;;
            data <- apply_if_any daug data ;;
            dprep <- gets dprep_dict ;;
            data <- apply_if_any dprep data ;;
            fq <- gets feed_dict_queue ;;
            match Py.put fq (Py.Item data) with
            | None => block
            | Some fq' =>
                modify (fun self => with_feed_dict_queue self fq') ;;;
                ret Continue
            end
        end
    end.

Definition fill_feed_dict_queue (fuel : nat) : M loop_ctl :=
  while_loop fuel fill_feed_dict_queue_turn.

(** One turn of the loop of [fill_batch_ids_queue]. *)
Definition fill_batch_ids_queue_turn : M loop_ctl :=
  go <- keep_running ;;
  if negb go then ret Break
  else
    ids <- next_batch_ids ;;
    match ids with
    | None => ret Break
    | Some ids =>
        y <- second_value ;;
        picked <- or_raise Py.IndexError (Py.index y ids) ;;
        labels <- or_reraise (Py.argmax1 picked) ;;
        bsz <- gets batch_size ;;
        if negb (Z.of_nat (length ids) =? bsz) then raise Py.AssertionError
        else
          q <- gets batch_ids_queue ;;
          match Py.put q (Py.Item ids) with
          | None => block
          | Some q' =>
              modify (fun self => with_batch_ids_queue self q') ;;;
              ret Continue
          end
    end.

Definition fill_batch_ids_queue (fuel : nat) : M loop_ctl :=
  while_loop fuel fill_batch_ids_queue_turn.

(** [next]: the status is updated, then the queue is read.  [Queue.get]
    refuses a negative timeout before it looks at the queue; with a timeout
    and nothing to read it raises [Empty]; without one the caller waits. *)
Definition next (timeout : option Z) : M (Py.msg (dict Py.ndarray)) :=
  modify (fun self =>
            with_data_status self (DataFlowStatus.update (data_status self))) ;;;
  q <- gets feed_dict_queue ;;
  match timeout with
  | None =>
      match Py.get q with
      | None => block
      | Some (m, q') => modify (fun self => with_feed_dict_queue self q') ;;; ret m
      end
  | Some tm =>
      if tm <? 0 then raise Py.ValueError
      else
        match Py.get q with
        | None => raise Py.QueueEmpty
        | Some (m, q') => modify (fun self => with_feed_dict_queue self q') ;;; ret m
        end
  end.

(** [start] *)
Definition start (reset_status : bool) : M unit :=
  clear_queues ;;;
  modify (fun self => with_interrupted self false) ;;;
  (if reset_status then
     modify (fun self =>
               with_data_status self (DataFlowStatus.reset (data_status self)))
   else ret tt) ;;;
  n <- gets num_threads ;;
  let bi_threads := [mkThread fill_batch_ids_queue_target Alive] in
  let fd_threads := repeat (mkThread fill_feed_dict_queue_target Alive) (Z.to_nat n) in
  modify (fun self => with_threads self (Some (bi_threads ++ fd_threads))).

(** A thread that [join] does not have to wait for any longer. *)
Definition terminated (th : thread) : bool :=
  match status th with
  | Finished | Died _ => true
  | Alive | Suspended => false
  end.

(** [wait_for_threads]: [self.threads] does not exist before [start]; the
    join lasts as long as one of the threads runs. *)
Definition wait_for_threads : M unit :=
  ts <- gets threads ;;
  ts <- or_raise Py.AttributeError ts ;;
  if negb (forallb terminated ts) then block
  else
    q <- gets feed_dict_queue ;;
    match Py.put q Py.Sentinel with
    | None => block
    | Some q' => modify (fun self => with_feed_dict_queue self q')
    end.

(** [DataFlow.__init__] and [FeedDictFlow.__init__], run on an object whose
    attributes are still to be set ([batches], [batch_index] and
    [data_status] are assigned before anything reads them).  [coord] is the
    answer of the coordinator's [should_stop]. *)
Definition init (feed_dict : dict Py.ndarray) (coord : bool)
    (batch_size num_threads max_queue : Z)
    (shuffle continuous ensure_data_order : bool)
    (dprep_dict daug_dict : option (dict transform))
    (index_array : option (list Z)) (balanced_classes : bool)
  : outcome unit :=
  let num_threads := if ensure_data_order then 1 else num_threads in
  let max_queue := if ensure_data_order then 1 else max_queue in
  let blank n_samples ia :=
    mk coord num_threads max_queue shuffle continuous dprep_dict daug_dict false
       feed_dict batch_size n_samples balanced_classes
       (Py.mkQueue max_queue []) (Py.mkQueue max_queue [])
       ia [] 0 (DataFlowStatus.init 0 0) None [] O in
  match Utils.get_dict_first_element feed_dict with
  | None => Raises Py.TypeError (blank 0 [])
  | Some first =>
      let n_samples := Py.len first in
      let self :=
        match index_array with
        | None => blank n_samples (Py.arange n_samples)
        | Some ia => blank (Z.of_nat (length ia)) ia
        end in
      ((if balanced_classes then
          b <- make_balanced_batches ;;
          modify (fun self => with_batches self b) ;;;
          reset_balanced_batches
        else
          b <- make_batches ;;
          modify (fun self => with_batches self b) ;;;
          reset_batches) ;;;
       modify (fun self =>
                 with_data_status self
                   (DataFlowStatus.init (FeedDictFlow.batch_size self)
                                        (FeedDictFlow.n_samples self)))) self
  end.

(** *** Threads taking turns

    The pipeline's threads share the object.  A schedule lists who acts:
    a pipeline thread running some turns of its loop, a waiter launched by
    [stop], or the caller invoking a method.  A thread suspended in a queue
    operation is not resumed, and the schedule ends when the caller itself
    is suspended. *)

Inductive event : Type :=
| thread_runs (i : nat) (fuel : nat)
| waiter_runs (j : nat)
| call_next (timeout : option Z)
| call_start (reset_status : bool)
| call_stop
| call_reset
| call_interrupt.

Inductive seen : Type :=
| next_returned (m : Py.msg (dict Py.ndarray))
| call_returned
| call_raised (e : Py.exn)
| call_hangs.

Fixpoint set_status (ts : list thread) (i : nat) (st : thread_status)
  : list thread :=
  match ts, i with
  | [], _ => []
  | th :: ts', O => mkThread (thread_target th) st :: ts'
  | th :: ts', S i' => th :: set_status ts' i' st
  end.

Fixpoint set_waiter (ws : list thread_status) (j : nat) (st : thread_status)
  : list thread_status :=
  match ws, j with
  | [], _ => []
  | _ :: ws', O => st :: ws'
  | w :: ws', S j' => w :: set_waiter ws' j' st
  end.

Definition loop_of (tg : target) (fuel : nat) : M loop_ctl :=
  match tg with
  | fill_batch_ids_queue_target => fill_batch_ids_queue fuel
  | fill_feed_dict_queue_target => fill_feed_dict_queue fuel
  end.

Definition run_thread (i fuel : nat) (self : t) : t :=
  match threads self with
  | None => self
  | Some ts =>
      match nth_error ts i with
      | Some (mkThread tg Alive) =>
          let marked st self' :=
            with_threads self' (option_map (fun ts' => set_status ts' i st)
                                           (threads self')) in
          match loop_of tg fuel self with
          | Returns Continue self' => marked Alive self'
          | Returns Break self' => marked Finished self'
          | Raises e self' => marked (Died e) self'
          | Blocks self' => marked Suspended self'
          end
      | _ => self
      end
  end.

Definition run_waiter (j : nat) (self : t) : t :=
  match nth_error (waiters self) j with
  | Some Alive =>
      match wait_for_threads self with
      | Returns _ self' => with_waiters self' (set_waiter (waiters self') j Finished)
      | Raises e self' => with_waiters self' (set_waiter (waiters self') j (Died e))
      | Blocks self' => self'
      end
  | _ => self
  end.

Definition observe {A : Type} (see : A -> seen) (o : outcome A) : seen * t :=
  match o with
  | Returns a self' => (see a, self')
  | Raises e self' => (call_raised e, self')
  | Blocks self' => (call_hangs, self')
  end.

Definition call (ev : event) (self : t) : option (seen * t) :=
  match ev with
  | call_next timeout => Some (observe next_returned (next timeout self))
  | call_start rs => Some (observe (fun _ => call_returned) (start rs self))
  | call_stop => Some (observe (fun _ => call_returned) (stop self))
  | call_reset => Some (observe (fun _ => call_returned) (reset self))
  | call_interrupt => Some (observe (fun _ => call_returned) (interrupt self))
  | thread_runs _ _ | waiter_runs _ => None
  end.

Fixpoint run (evs : list event) (self : t) : list seen * t :=
  match evs with
  | [] => ([], self)
  | ev :: evs' =>
      match ev with
      | thread_runs i fuel => run evs' (run_thread i fuel self)
      | waiter_runs j => run evs' (run_waiter j self)
      | _ =>
          match call ev self with
          | Some (call_hangs, self') => ([call_hangs], self')
          | Some (o, self') =>
              let (os, self'') := run evs' self' in (o :: os, self'')
          | None => run evs' self
          end
      end
  end.

End Methods.

End FeedDictFlow.

(** ** Concrete pipelines used below *)

Module Samples.

Import FeedDictFlow.
Import String.StringSyntax.
Local Open Scope string_scope.

(** A generator that never permutes and a balanced splitter that falls back
    on the uniform one: with [shuffle] and [balanced_classes] off neither is
    consulted. *)
Definition no_shuffle (n : nat) (l : list Z) : list Z := l.
Definition any_balanced (n b : Z) (labels : Py.ndarray) : list (list Z) :=
  Utils.make_batches n b.

(** [n] samples: inputs [X] (a vector [0..n-1]) and one-hot labels [Y] over
    two classes. *)
Definition X_of (n : Z) : Py.ndarray := Py.Vec (Py.arange n).
Definition Y_of (n : Z) : Py.ndarray :=
  Py.Mat (map (fun i => if Z.even i then [1; 0] else [0; 1]) (Py.arange n)).
Definition dataset (n : Z) : dict Py.ndarray := [("X", X_of n); ("Y", Y_of n)].

(** [FeedDictFlow(dataset(n), coord, batch_size, continuous=...)] with the
    other arguments at their defaults. *)
Definition construct (n batch_size : Z) (continuous : bool) : outcome unit :=
  init no_shuffle any_balanced (dataset n) false batch_size 8 32 false continuous
       false None None None false.

(** The object a call leaves behind. *)
Definition state_of {A : Type} (o : outcome A) : t :=
  match o with
  | Returns _ self => self
  | Raises _ self => self
  | Blocks self => self
  end.

Definition fresh (n batch_size : Z) (continuous : bool) : t :=
  state_of (construct n batch_size continuous).

(** A dataset whose keys disagree on the leading dimension: three inputs,
    two label rows. *)
Definition mismatched : dict Py.ndarray :=
  [("X", Py.Vec [0; 1; 2]); ("Y", Py.Mat [[1; 0]; [0; 1]])].

(** Its rows 0 and 1. *)
Definition mismatched_rows_0_1 : dict Py.ndarray :=
  [("X", Py.Vec [0; 1]); ("Y", Py.Mat [[1; 0]; [0; 1]])].

(** The schedule in which [start] is called, the index producer runs until
    it stops, then each of the eight workers does, then the waiter that
    [stop] may have launched. *)
Definition each_thread_in_turn : list event :=
  [call_start true;
   thread_runs 0 100;
   thread_runs 1 100; thread_runs 2 100; thread_runs 3 100; thread_runs 4 100;
   thread_runs 5 100; thread_runs 6 100; thread_runs 7 100; thread_runs 8 100;
   waiter_runs 0].

Definition play (evs : list event) (self : t) : list seen * t :=
  run no_shuffle any_balanced evs self.

(** Four samples in batches of two, not continuous: the pipeline after the
    whole pass was produced and both batches were read. *)
Definition both_batches_read : t :=
  snd (play (each_thread_in_turn ++ [call_next None; call_next None])
            (fresh 4 2 false)).

(** The same pipeline after the whole pass was produced, before anything
    was read. *)
Definition pass_finished : t :=
  snd (play each_thread_in_turn (fresh 4 2 false)).



(** Four samples whose labels have three axes: for each sample a column of
    two classes, each entry in an axis of length one; and the pipeline
    built on them, in batches of two. *)
Definition Y_deep (n : Z) : Py.ndarray :=
  Py.Tensor [2%nat; 1%nat]
    (map (fun i => if Z.even i then [1; 0] else [0; 1]) (Py.arange n)).

Definition deep_labels : t :=
  state_of (init no_shuffle any_balanced [("X", X_of 4); ("Y", Y_deep 4)]
                 false 2 8 32 false false false None None None false).

(** A dataset of inputs only, as uniform batching would need. *)
Definition inputs_only (n : Z) : dict Py.ndarray := [("X", X_of n)].

(** The pipeline built on [mismatched], with the batch [2] on its index
    queue. *)
Definition mismatched_row_2_queued : t :=
  let self :=
    state_of (init no_shuffle any_balanced mismatched false 2 8 32 false false
                   false None None None false) in
  with_batch_ids_queue self (Py.mkQueue 32 [Py.Item [2]]).

(** Transforms on the inputs: doubling as augmentation, adding one as
    preprocessing; and the pipeline of four samples that registers them,
    with the batch [0,1] on its index queue. *)
Definition map_entries (f : Z -> Z) (a : Py.ndarray) : Py.ndarray :=
  match a with
  | Py.Vec xs => Py.Vec (map f xs)
  | Py.Mat rows => Py.Mat (map (map f) rows)
  | Py.Tensor inner blocks => Py.Tensor inner (map (map f) blocks)
  end.

Definition doubling : transform :=
  mkTransform (fun a => Some (map_entries (Z.mul 2) a)).
Definition adding_one : transform :=
  mkTransform (fun a => Some (map_entries (Z.add 1) a)).

Definition inputs_key : key := "X".

Definition transforms_queued : t :=
  let self :=
    state_of (init no_shuffle any_balanced (dataset 4) false 2 8 32 false false
                   false (Some [(inputs_key, adding_one)])
                   (Some [(inputs_key, doubling)]) None false) in
  with_batch_ids_queue self (Py.mkQueue 32 [Py.Item [0; 1]]).

(** Four samples in batches of two with [balanced_classes]. *)
Definition balanced_sample : t :=
  state_of (init no_shuffle any_balanced (dataset 4) false 2 8 32 false false
                 false None None None true).

(** The feed dict a worker makes of the rows [ids]. *)
Definition rows_of (ids : list Z) : Py.msg (dict Py.ndarray) :=
  Py.Item [("X", Py.Vec ids);
           ("Y", Py.Mat (map (fun i => if Z.even i then [1; 0] else [0; 1]) ids))].

End Samples.

Import FeedDictFlow.
Import Samples.

(** * Notions the properties are stated with *)

(** The settings of a pipeline are fixed at construction, and without
    shuffling so are the batch plan and the sample index array.  [keeps]
    relates a state to a later one; a computation is [stable] when it keeps
    the state it starts from, however it ends. *)

Definition settings (self : t) :=
  (num_threads self, max_queue self, shuffle self, continuous self,
   feed_dict self, batch_size self, n_samples self, balanced_classes self).

Definition keeps (self self' : t) : Prop :=
  settings self' = settings self /\
  (shuffle self = false ->
   batches self' = batches self /\ index_array self' = index_array self).

Definition stable {A : Type} (m : M A) : Prop :=
  forall self, keeps self (state_of (m self)).

(** The index batches that [n] successive calls of [next_batch_ids] return,
    up to the first call that does not return one. *)
Fixpoint produced (draw : nat -> list Z -> list Z)
    (balanced : Z -> Z -> Py.ndarray -> list (list Z)) (n : nat) (self : t)
  : list (list Z) :=
  match n with
  | O => []
  | S n' =>
      match next_batch_ids draw balanced self with
      | Returns (Some ids) self' => ids :: produced draw balanced n' self'
      | _ => []
      end
  end.

(** The sample ids of the batch at cursor [i]: what [current_batch_ids]
    computes, as a function of the plan. *)
Definition ids_at (bs : list (list Z)) (ia : list Z) (i : Z) : option (list Z) :=
  match Py.getitem bs i with
  | Some (p :: ind) => Py.take ia (p :: ind)
  | _ => None
  end.

(** Without shuffling, the batch that follows cursor [i] and the cursor it
    leaves: what [next_batch_ids] does to a plan that it does not rebuild. *)
Definition ids_after (bs : list (list Z)) (ia : list Z) (cont : bool) (i : Z)
  : option (list Z * Z) :=
  if i + 1 =? Z.of_nat (length bs) then
    if cont then option_map (fun ids => (ids, -1)) (ids_at bs ia (-1))
    else None
  else option_map (fun ids => (ids, i + 1)) (ids_at bs ia (i + 1)).

Fixpoint planned (n : nat) (bs : list (list Z)) (ia : list Z) (cont : bool)
    (i : Z) : list (list Z) :=
  match n with
  | O => []
  | S n' =>
      match ids_after bs ia cont i with
      | Some (ids, i') => ids :: planned n' bs ia cont i'
      | None => []
      end
  end.

(** [k] successive calls of [DataFlowStatus.update]. *)
Fixpoint updates (k : nat) (st : DataFlowStatus.t) : DataFlowStatus.t :=
  match k with
  | O => st
  | S k' => DataFlowStatus.update (updates k' st)
  end.

(** What the status keeps true between calls: the step counts the batches
    of the current epoch and never points past the dataset. *)
Definition status_ok (st : DataFlowStatus.t) : Prop :=
  0 <= DataFlowStatus.step st /\
  DataFlowStatus.step st * DataFlowStatus.batch_size st
    < DataFlowStatus.n_samples st /\
  0 <= DataFlowStatus.current_iter st <= DataFlowStatus.n_samples st.

(** A computation that only reads the object. *)
Definition reads_only {A : Type} (m : M A) : Prop :=
  forall self, state_of (m self) = self.

(** The rows [ids] of every value of a feed dict, key by key; [None] when
    some value has no such row. *)
Fixpoint slice_each (fd : dict Py.ndarray) (ids : list Z)
  : option (dict Py.ndarray) :=
  match fd with
  | [] => Some []
  | (k, X) :: fd' =>
      match Utils.slice_array X ids, slice_each fd' ids with
      | Some Y, Some d => Some ((k, Y) :: d)
      | _, _ => None
      end
  end.

(** A value passed through the transform registered for key [k], if the
    registry exists and has one. *)
Definition through (d : option (dict transform)) (k : key) (v : Py.ndarray)
  : option Py.ndarray :=
  match d with
  | None => Some v
  | Some d' =>
      match dict_get d' k with
      | Some tr => apply tr v
      | None => Some v
      end
  end.

(** Readings of an outcome: the call returned [False], the caller is left
    waiting, the loop has not been left. *)
Definition returns_false {A : Type} (o : outcome (option A)) : bool :=
  match o with
  | Returns None _ => true
  | _ => false
  end.

Definition waits {A : Type} (o : outcome A) : bool :=
  match o with
  | Blocks _ => true
  | _ => false
  end.

Definition still_running (o : outcome loop_ctl) : bool :=
  match o with
  | Returns Continue _ => true
  | _ => false
  end.

(** A registry of transforms as a Python dict has it: no key twice. *)
Definition distinct_keys (d : option (dict transform)) : Prop :=
  match d with
  | None => True
  | Some d' => NoDup (map fst d')
  end.

(** [feed_dict.values()[1][ids].argmax(1)], the expression the producer
    loop evaluates on a batch [ids]. *)
Definition batch_labels (fd : dict Py.ndarray) (ids : list Z)
  : Py.exn + Py.ndarray :=
  match nth_error (values fd) 1 with
  | None => inl Py.IndexError
  | Some y =>
      match Py.index y ids with
      | None => inl Py.IndexError
      | Some picked => Py.argmax1 picked
      end
  end.

(** *** A call of [stop], one queue operation at a time

    [stop] puts its sentinels with blocking puts: where the index queue is
    full the call waits until another thread has made room.  [stop_step]
    is one step of the call: the put of one more sentinel, possible only
    when the queue is not full, or, the loop being over, the launch of the
    waiter.  [stop_runs] is the call among other threads, which may change
    the object between any two of its steps; it records what the steps of
    the call have put on the index queue and on the data queue and the
    waiters they have launched. *)







(** * Properties *)

(** ** The status tracker *)

Section Status.

Import DataFlowStatus.

(** C3. One call of [update] leaves [current_iter] at
    [min ((step + 1) * batch_size) n_samples]; when that equals [n_samples]
    the epoch is incremented and the step is back at 0, otherwise the epoch
    is unchanged and the step is [step + 1].  This holds for every state, in
    particular for positive [batch_size] and [n_samples]. *)
Theorem update_advances_status : forall st : DataFlowStatus.t,
  let reached := Z.min ((step st + 1) * batch_size st) (n_samples st) in
  current_iter (update st) = reached /\
  batch_size (update st) = batch_size st /\
  n_samples (update st) = n_samples st /\
  (reached = n_samples st ->
   epoch (update st) = epoch st + 1 /\ step (update st) = 0) /\
  (reached <> n_samples st ->
   epoch (update st) = epoch st /\ step (update st) = step st + 1).
Proof.
  intros [s e c b n]; unfold update; cbn [step epoch current_iter batch_size
    n_samples with_step with_current_iter with_epoch].
  destruct (Z.eqb_spec (Z.min ((s + 1) * b) n) n) as [Heq | Hne];
    cbn [step epoch current_iter batch_size n_samples];
    repeat split; intros; congruence.
Qed.

(** C10. [reset] zeroes [step] and [epoch] and touches nothing else:
    [current_iter], [batch_size] and [n_samples] keep their values. *)
Theorem status_reset_frame : forall st : DataFlowStatus.t,
  step (DataFlowStatus.reset st) = 0 /\
  epoch (DataFlowStatus.reset st) = 0 /\
  current_iter (DataFlowStatus.reset st) = current_iter st /\
  batch_size (DataFlowStatus.reset st) = batch_size st /\
  n_samples (DataFlowStatus.reset st) = n_samples st.
Proof.
  intros [s e c b n]; unfold DataFlowStatus.reset; cbn; repeat split.
Qed.

End Status.

(** ** Unfolding the method monad *)

Tactic Notation "unfold_m" :=
  unfold bind, ret, raise, block, gets, modify, or_raise, or_reraise.
Tactic Notation "unfold_m" "in" hyp(H) :=
  unfold bind, ret, raise, block, gets, modify, or_raise, or_reraise in H.

Lemma drain_nil : forall (A : Type) (pending : list (Py.msg A)),
  drain pending = [].
Proof. induction pending as [| x rest IH]; [reflexivity | exact IH]. Qed.

Lemma cleared_cleared : forall (A : Type) (q : Py.Queue A),
  cleared (cleared q) = cleared q.
Proof. intros A q; unfold cleared; cbn; now rewrite !drain_nil. Qed.

(** ** The consumer's read and the status *)

(** C4, as the code has it.  Every call of [next] performs exactly one
    [update] of the status, before the queue is read and whatever comes of
    the read: a batch, the end-of-stream sentinel, a timeout, a refused
    timeout or a caller left waiting. *)
Theorem next_always_updates_status : forall (timeout : option Z) (self : t),
  data_status (state_of (next timeout self)) =
  DataFlowStatus.update (data_status self).
Proof.
  intros timeout self; unfold next; unfold_m.
  destruct timeout as [tm |].
  - destruct (tm <? 0); [reflexivity |].
    cbn [feed_dict_queue with_data_status].
    destruct (Py.get (feed_dict_queue self)) as [[m q'] |]; reflexivity.
  - cbn [feed_dict_queue with_data_status].
    destruct (Py.get (feed_dict_queue self)) as [[m q'] |]; reflexivity.
Qed.

(** C4, refuted as stated.  On a pipeline that has just been built, whose
    data queue is empty, [next(timeout=1)] fails with the queue's timeout
    and the status has moved from step 0 to step 1; and once both batches
    of a finished pass were read, the data queue holds only the
    end-of-stream sentinel, [next()] returns it and the status has moved as
    well. *)
Lemma next_failure_moves_status :
  (exists self', next (Some 1) (fresh 4 2 false) = Raises Py.QueueEmpty self' /\
                 DataFlowStatus.step (data_status self') = 1) /\
  DataFlowStatus.step (data_status (fresh 4 2 false)) = 0 /\
  (exists self',
     next None both_batches_read = Returns Py.Sentinel self' /\
     data_status self' <> data_status both_batches_read).
Proof.
  split; [| split].
  - eexists; split; [vm_compute; reflexivity | reflexivity].
  - reflexivity.
  - eexists; split; [vm_compute; reflexivity | vm_compute; discriminate].
Qed.

(** ** Construction *)

(** C5, as the code has it.  [__init__] never compares the lengths of the
    dataset's values: with uniform batching, construction succeeds on every
    feed dict that has a first value, whatever the other values are, and
    [n_samples] is the length of that first value, or of [index_array] when
    one is given. *)
Theorem init_reads_first_length_only :
  forall (draw : nat -> list Z -> list Z)
         (balanced : Z -> Z -> Py.ndarray -> list (list Z))
         (k : key) (first : Py.ndarray) (others : dict Py.ndarray)
         (coord : bool) (bsz nthreads mq : Z) (sh cont order : bool)
         (dprep daug : option (dict transform)) (ia : option (list Z)),
  exists self,
    init draw balanced ((k, first) :: others) coord bsz nthreads mq sh cont
         order dprep daug ia false = Returns tt self /\
    feed_dict self = (k, first) :: others /\
    n_samples self =
      match ia with
      | None => Py.len first
      | Some a => Z.of_nat (length a)
      end /\
    batches self = Utils.make_batches (n_samples self) bsz /\
    batch_index self = -1 /\
    data_status self = DataFlowStatus.init bsz (n_samples self).
Proof.
  intros. unfold init. cbn [Utils.get_dict_first_element].
  unfold reset_batches, make_batches, shuffle_samples; unfold_m.
  destruct ia as [a |]; destruct sh; cbn; eexists; repeat split.
Qed.

(** C5, refuted as stated.  The two values of [mismatched] have 3 and 2
    rows, and the constructor returns an object for 3 samples. *)
Lemma mismatched_lengths_are_accepted :
  values mismatched = [Py.Vec [0; 1; 2]; Py.Mat [[1; 0]; [0; 1]]] /\
  Py.len (Py.Vec [0; 1; 2]) <> Py.len (Py.Mat [[1; 0]; [0; 1]]) /\
  exists self,
    init no_shuffle any_balanced mismatched false 2 8 32 false false false
         None None None false = Returns tt self /\
    n_samples self = 3 /\
    batches self = [[0; 1]; [2]].
Proof.
  split; [reflexivity | split; [discriminate |]].
  eexists; split; [vm_compute; reflexivity | split; reflexivity].
Qed.

(** ** Stopping, interrupting, resetting *)

Lemma with_batch_ids_queue_same : forall self : t,
  with_batch_ids_queue self (batch_ids_queue self) = self.
Proof. intros []; reflexivity. Qed.

(** What [put_sentinels] has done when it returns: [k] sentinels are behind
    what the index queue held, and nothing else has changed. *)
Lemma put_sentinels_returns : forall (k : nat) (self self' : t),
  put_sentinels k self = Returns tt self' ->
  self' = with_batch_ids_queue self (batch_ids_queue self') /\
  Py.maxsize (batch_ids_queue self') = Py.maxsize (batch_ids_queue self) /\
  Py.items (batch_ids_queue self') =
  Py.items (batch_ids_queue self) ++ repeat Py.Sentinel k.
Proof.
  induction k as [| k IH]; intros self self' H.
  - cbn in H. unfold ret in H. injection H as <-.
    rewrite with_batch_ids_queue_same, app_nil_r. repeat split.
  - cbn [put_sentinels] in H. unfold_m in H.
    unfold Py.put in H.
    destruct (Py.full (batch_ids_queue self)); [discriminate |].
    apply IH in H. destruct H as (Hs & Hm & Hi).
    destruct self; cbn in *.
    rewrite Hm, Hi, <- app_assoc. repeat split. exact Hs.
Qed.

Lemma put_sentinels_never_raises : forall (k : nat) (self : t) e self',
  put_sentinels k self <> Raises e self'.
Proof.
  induction k as [| k IH]; intros self e self'.
  - discriminate.
  - cbn [put_sentinels]. unfold_m. unfold Py.put.
    destruct (Py.full (batch_ids_queue self)); [discriminate | apply IH].
Qed.

(** With room for them, the sentinels are all put and the call returns. *)
Lemma put_sentinels_with_room : forall (k : nat) (self : t),
  Py.maxsize (batch_ids_queue self) <= 0 \/
  Z.of_nat (length (Py.items (batch_ids_queue self))) + Z.of_nat k
    <= Py.maxsize (batch_ids_queue self) ->
  exists self', put_sentinels k self = Returns tt self'.
Proof.
  induction k as [| k IH]; intros self Hroom.
  - eexists; reflexivity.
  - cbn [put_sentinels]. unfold_m. unfold Py.put, Py.full.
    destruct (batch_ids_queue self) as [mx its] eqn:Hq; cbn in Hroom |- *.
    assert (Hnot : (0 <? mx) && (mx <=? Z.of_nat (length its)) = false).
    { apply andb_false_iff. destruct Hroom as [H | H].
      - left; apply Z.ltb_ge; lia.
      - right; apply Z.leb_gt; lia. }
    rewrite Hnot. apply IH.
    destruct self; cbn in *. rewrite length_app; cbn [length].
    destruct Hroom as [H | H]; [left; lia | right; lia].
Qed.

(** What [stop] has done when it returns. *)
Lemma stop_returns : forall (self self' : t),
  stop self = Returns tt self' ->
  Py.items (batch_ids_queue self') =
    Py.items (batch_ids_queue self) ++
    repeat Py.Sentinel (Z.to_nat (num_threads self)) /\
  Py.maxsize (batch_ids_queue self') = Py.maxsize (batch_ids_queue self) /\
  feed_dict_queue self' = feed_dict_queue self /\
  waiters self' = waiters self ++ [Alive] /\
  num_threads self' = num_threads self /\
  threads self' = threads self.
Proof.
  intros self self' H. unfold stop in H. unfold_m in H.
  destruct (put_sentinels (Z.to_nat (num_threads self)) self) as [[] s1 | |]
    eqn:Hput; try discriminate.
  injection H as <-.
  apply put_sentinels_returns in Hput. destruct Hput as (Hs & Hm & Hi).
  rewrite Hs. destruct self; cbn in *. repeat split; assumption.
Qed.

Lemma stop_never_raises : forall (self : t) e self',
  stop self <> Raises e self'.
Proof.
  intros self e self'. unfold stop. unfold_m.
  destruct (put_sentinels (Z.to_nat (num_threads self)) self) eqn:Hput;
    try discriminate.
  exfalso; exact (put_sentinels_never_raises _ _ _ _ Hput).
Qed.

(** C6, as the code has it.  [reset] and [interrupt] are idempotent and
    return from every state, the one before [start] included.  [stop] never
    raises in its caller either, but it is not idempotent: a second call
    that returns has put [num_threads] more sentinels on the index queue and
    launched a second waiter. *)
Theorem reset_interrupt_idempotent_stop_repeats : forall self : t,
  (exists s1, reset self = Returns tt s1 /\ reset s1 = Returns tt s1) /\
  (exists s1, interrupt self = Returns tt s1 /\ interrupt s1 = Returns tt s1) /\
  (forall e self', stop self <> Raises e self') /\
  (forall s1 s2,
     stop self = Returns tt s1 -> stop s1 = Returns tt s2 ->
     Py.items (batch_ids_queue s2) =
       Py.items (batch_ids_queue self) ++
       repeat Py.Sentinel (Z.to_nat (num_threads self)) ++
       repeat Py.Sentinel (Z.to_nat (num_threads self)) /\
     waiters s2 = waiters self ++ [Alive; Alive]).
Proof.
  intros self. repeat split.
  - eexists; split; [reflexivity |]. destruct self; reflexivity.
  - eexists; split; [reflexivity |].
    destruct self; unfold interrupt, clear_queues; unfold_m; cbn.
    now rewrite !cleared_cleared.
  - apply stop_never_raises.
  - apply stop_returns in H. apply stop_returns in H0.
    destruct H as (Hi & _ & _ & _ & Hn & _), H0 as (Hi' & _).
    rewrite Hi', Hi, Hn, <- app_assoc. reflexivity.
  - apply stop_returns in H. apply stop_returns in H0.
    destruct H as (_ & _ & _ & Hw & _), H0 as (_ & _ & _ & Hw' & _).
    rewrite Hw', Hw, <- app_assoc. reflexivity.
Qed.

(** The statement above at a pipeline that was built and never started. *)
Lemma stop_twice_before_start :
  Py.items (batch_ids_queue (state_of (stop (state_of (stop (fresh 4 2 false)))))) =
    Py.items (batch_ids_queue (fresh 4 2 false)) ++
    repeat Py.Sentinel (Z.to_nat (num_threads (fresh 4 2 false))) ++
    repeat Py.Sentinel (Z.to_nat (num_threads (fresh 4 2 false))) /\
  waiters (state_of (stop (state_of (stop (fresh 4 2 false))))) =
    waiters (fresh 4 2 false) ++ [Alive; Alive].
Proof.
  apply (proj2 (proj2 (proj2
           (reset_interrupt_idempotent_stop_repeats (fresh 4 2 false))))
         (state_of (stop (fresh 4 2 false)))); vm_compute; reflexivity.
Defined.

(** C6, refuted as stated.  On a pipeline that was built and never started,
    [stop] returns twice, and the second call leaves sixteen sentinels on
    the index queue and two waiters where the first left eight and one. *)
Lemma stop_is_not_idempotent :
  exists s1 s2,
    threads (fresh 4 2 false) = None /\
    stop (fresh 4 2 false) = Returns tt s1 /\
    stop s1 = Returns tt s2 /\
    length (Py.items (batch_ids_queue s1)) = 8%nat /\
    length (Py.items (batch_ids_queue s2)) = 16%nat /\
    length (waiters s1) = 1%nat /\
    length (waiters s2) = 2%nat /\
    s2 <> s1.
Proof.
  eexists; eexists.
  split; [reflexivity |].
  split; [vm_compute; reflexivity |].
  split; [vm_compute; reflexivity |].
  repeat (split; [reflexivity |]).
  intros Heq. apply (f_equal (fun s => length (waiters s))) in Heq.
  vm_compute in Heq. discriminate.
Qed.

(** ** What no method changes *)

Lemma keeps_refl : forall self, keeps self self.
Proof. intros self; split; [reflexivity | intros _; split; reflexivity]. Qed.

Lemma keeps_trans : forall s1 s2 s3, keeps s1 s2 -> keeps s2 s3 -> keeps s1 s3.
Proof.
  intros s1 s2 s3 [H12 P12] [H23 P23]. split.
  - now rewrite H23.
  - intros Hsh. destruct (P12 Hsh) as [Hb Hi].
    assert (Hsh2 : shuffle s2 = false).
    { unfold settings in H12. injection H12 as _ _ Hs _ _ _ _ _. congruence. }
    destruct (P23 Hsh2) as [Hb' Hi']. split; congruence.
Qed.

Lemma keeps_shuffle : forall s s', keeps s s' -> shuffle s' = shuffle s.
Proof.
  intros s s' [H _]. unfold settings in H. now injection H as _ _ Hs _ _ _ _ _.
Qed.

Create HintDb frame.

Lemma stable_ret : forall (A : Type) (a : A), stable (ret a).
Proof. intros A a self; apply keeps_refl. Qed.

Lemma stable_raise : forall (A : Type) e, stable (@raise A e).
Proof. intros A e self; apply keeps_refl. Qed.

Lemma stable_block : forall (A : Type), stable (@block A).
Proof. intros A self; apply keeps_refl. Qed.

Lemma stable_gets : forall (A : Type) (f : t -> A), stable (gets f).
Proof. intros A f self; apply keeps_refl. Qed.

Lemma stable_or_raise : forall (A : Type) e (o : option A), stable (or_raise e o).
Proof. intros A e [a |] self; apply keeps_refl. Qed.

Lemma stable_or_reraise : forall (A : Type) (r : Py.exn + A), stable (or_reraise r).
Proof. intros A [e | a] self; apply keeps_refl. Qed.

Lemma stable_modify : forall f : t -> t,
  (forall self, keeps self (f self)) -> stable (modify f).
Proof. intros f H self; apply H. Qed.

Lemma stable_bind : forall (A B : Type) (m : M A) (k : A -> M B),
  stable m -> (forall a, stable (k a)) -> stable (bind m k).
Proof.
  intros A B m k Hm Hk self. unfold bind.
  specialize (Hm self). destruct (m self) as [a s1 | e s1 | s1]; cbn in *.
  - eapply keeps_trans; [exact Hm | apply Hk].
  - exact Hm.
  - exact Hm.
Qed.

#[local] Hint Resolve stable_ret stable_raise stable_block stable_gets
  stable_or_raise stable_or_reraise keeps_refl : frame.

(** The attributes whose assignment [keeps] does not look at. *)
Lemma keeps_with_batch_index : forall self v, keeps self (with_batch_index self v).
Proof. intros [] v; split; [reflexivity | intros _; split; reflexivity]. Qed.

Lemma keeps_with_batch_ids_queue : forall self v,
  keeps self (with_batch_ids_queue self v).
Proof. intros [] v; split; [reflexivity | intros _; split; reflexivity]. Qed.

Lemma keeps_with_feed_dict_queue : forall self v,
  keeps self (with_feed_dict_queue self v).
Proof. intros [] v; split; [reflexivity | intros _; split; reflexivity]. Qed.

Lemma keeps_with_data_status : forall self v, keeps self (with_data_status self v).
Proof. intros [] v; split; [reflexivity | intros _; split; reflexivity]. Qed.

Lemma keeps_with_interrupted : forall self v, keeps self (with_interrupted self v).
Proof. intros [] v; split; [reflexivity | intros _; split; reflexivity]. Qed.

Lemma keeps_with_threads : forall self v, keeps self (with_threads self v).
Proof. intros [] v; split; [reflexivity | intros _; split; reflexivity]. Qed.

Lemma keeps_with_waiters : forall self v, keeps self (with_waiters self v).
Proof. intros [] v; split; [reflexivity | intros _; split; reflexivity]. Qed.

#[local] Hint Resolve keeps_with_batch_index keeps_with_batch_ids_queue
  keeps_with_feed_dict_queue keeps_with_data_status keeps_with_interrupted
  keeps_with_threads keeps_with_waiters : frame.

(** Breaks a computation into its steps and closes what the hints cover. *)
Ltac frame_steps :=
  repeat match goal with
    | |- stable (bind _ _) => apply stable_bind; [| intros ?]
    | |- stable (modify _) => apply stable_modify; intros ?; cbv beta
    | |- stable (match ?x with _ => _ end) => destruct x
    | |- stable (if ?b then _ else _) => destruct b
    | |- stable (let _ := _ in _) => cbv zeta
    | |- _ => solve [auto with frame]
    end.

Lemma stable_clear_queues : stable clear_queues.
Proof. unfold clear_queues; frame_steps. Qed.

Lemma stable_put_sentinels : forall k, stable (put_sentinels k).
Proof. induction k as [| k IH]; cbn [put_sentinels]; frame_steps. Qed.

#[local] Hint Resolve stable_clear_queues stable_put_sentinels : frame.

Lemma stable_stop : stable stop.
Proof. unfold stop; frame_steps. Qed.

Lemma stable_reset : stable reset.
Proof. unfold reset; frame_steps. Qed.

Lemma stable_interrupt : stable interrupt.
Proof. unfold interrupt; frame_steps. Qed.

Lemma stable_next : forall timeout, stable (next timeout).
Proof. intros timeout; unfold next; frame_steps. Qed.

Lemma stable_start : forall reset_status, stable (start reset_status).
Proof. intros rs; unfold start; frame_steps. Qed.

Lemma stable_wait_for_threads : stable wait_for_threads.
Proof. unfold wait_for_threads; frame_steps. Qed.

#[local] Hint Resolve stable_stop stable_reset stable_interrupt stable_next
  stable_start stable_wait_for_threads : frame.

Lemma stable_reset_batches : forall draw, stable (reset_batches draw).
Proof.
  intros draw self.
  unfold reset_batches, shuffle_samples, make_batches; unfold_m.
  destruct self; cbn. destruct shuffle0; cbn;
    (split; [reflexivity | intros Hsh; try discriminate; split; reflexivity]).
Qed.

(** Case analysis on a [match] whose subject is not itself a [match]. *)
Ltac destruct_inner :=
  match goal with
  | |- context [match ?x with _ => _ end] =>
      lazymatch x with
      | context [match _ with _ => _ end] => fail
      | _ => destruct x eqn:?; cbn
      end
  end.

Lemma stable_reset_balanced_batches : forall draw balanced,
  stable (reset_balanced_batches draw balanced).
Proof.
  intros draw balanced self.
  unfold reset_balanced_batches, shuffle_samples, make_balanced_batches,
    second_value.
  cbv [bind ret raise block gets modify or_raise or_reraise].
  destruct self; cbn. destruct shuffle0; cbn.
  - repeat destruct_inner;
      (split; [reflexivity | intros Hsh; discriminate]).
  - split; [reflexivity | intros _; split; reflexivity].
Qed.

Lemma stable_current_batch_ids : stable current_batch_ids.
Proof. unfold current_batch_ids; frame_steps. Qed.

#[local] Hint Resolve stable_reset_batches stable_reset_balanced_batches
  stable_current_batch_ids : frame.

Lemma stable_next_batch_ids : forall draw balanced,
  stable (next_batch_ids draw balanced).
Proof. intros draw balanced; unfold next_batch_ids; frame_steps. Qed.

Lemma stable_slice_keys : forall fd batch_ids feed_batch,
  stable (slice_keys fd batch_ids feed_batch).
Proof.
  induction fd as [| [k X] fd IH]; intros batch_ids feed_batch;
    cbn [slice_keys]; frame_steps.
Qed.

Lemma stable_apply_all : forall d data, stable (apply_all d data).
Proof.
  induction d as [| [k tr] d IH]; intros data; cbn [apply_all]; frame_steps.
Qed.

#[local] Hint Resolve stable_next_batch_ids stable_slice_keys stable_apply_all
  : frame.

Lemma stable_fill_feed_dict_queue_turn : stable fill_feed_dict_queue_turn.
Proof.
  unfold fill_feed_dict_queue_turn, keep_running, retrieve_data, apply_if_any;
    frame_steps.
Qed.

Lemma stable_fill_batch_ids_queue_turn : forall draw balanced,
  stable (fill_batch_ids_queue_turn draw balanced).
Proof.
  intros draw balanced.
  unfold fill_batch_ids_queue_turn, keep_running, second_value; frame_steps.
Qed.

Lemma stable_while_loop : forall fuel body,
  stable body -> stable (while_loop fuel body).
Proof.
  induction fuel as [| fuel IH]; intros body Hbody; cbn [while_loop];
    frame_steps.
Qed.

#[local] Hint Resolve stable_fill_feed_dict_queue_turn
  stable_fill_batch_ids_queue_turn stable_while_loop : frame.

Lemma keeps_run_thread : forall draw balanced i fuel self,
  keeps self (run_thread draw balanced i fuel self).
Proof.
  intros draw balanced i fuel self. unfold run_thread.
  destruct (threads self) as [ts |]; [| apply keeps_refl].
  destruct (nth_error ts i) as [[tg []] |]; try apply keeps_refl.
  assert (Hloop : keeps self (state_of (loop_of draw balanced tg fuel self))).
  { destruct tg; cbn [loop_of];
      unfold fill_batch_ids_queue, fill_feed_dict_queue;
      apply stable_while_loop; auto with frame. }
  destruct (loop_of draw balanced tg fuel self) as [[] s1 | e s1 | s1];
    cbn [state_of] in Hloop;
    (eapply keeps_trans; [exact Hloop | apply keeps_with_threads]).
Qed.

Lemma keeps_run_waiter : forall j self, keeps self (run_waiter j self).
Proof.
  intros j self. unfold run_waiter.
  destruct (nth_error (waiters self) j) as [[] |]; try apply keeps_refl.
  pose proof (stable_wait_for_threads self) as Hw.
  destruct (wait_for_threads self) as [[] s1 | e s1 | s1]; cbn [state_of] in Hw;
    try exact Hw;
    (eapply keeps_trans; [exact Hw | apply keeps_with_waiters]).
Qed.

Lemma keeps_call : forall ev self o self',
  call ev self = Some (o, self') -> keeps self self'.
Proof.
  intros ev self o self' H.
  destruct ev; cbn [call] in H; try discriminate;
    match type of H with
    | Some (observe _ (?m self)) = _ =>
        let K := fresh "K" in
        assert (K : stable m) by auto with frame;
        specialize (K self);
        destruct (m self); cbn in H, K; injection H as _ <-; exact K
    end.
Qed.

(** However the threads take turns and whatever the caller invokes, the
    settings stay, and without shuffling the plan and the index array. *)
Lemma keeps_run : forall draw balanced evs self,
  keeps self (snd (run draw balanced evs self)).
Proof.
  intros draw balanced evs; induction evs as [| ev evs IH]; intros self.
  - apply keeps_refl.
  - destruct ev; cbn [run].
    1: eapply keeps_trans; [apply keeps_run_thread | apply IH].
    1: eapply keeps_trans; [apply keeps_run_waiter | apply IH].
    all: match goal with
         | |- context [call ?ev ?s] =>
             destruct (call ev s) as [[o s1] |] eqn:Hc; [| apply IH]
         end;
      apply keeps_call in Hc;
      destruct o; cbn [snd]; try exact Hc;
      specialize (IH s1);
      destruct (run draw balanced evs s1) as [os s2]; cbn [snd] in *;
      eapply keeps_trans; eassumption.
Qed.

(** ** The index producer without shuffling *)

Tactic Notation "run_m" :=
  cbv [bind ret raise block gets modify or_raise or_reraise].
Tactic Notation "run_m" "in" hyp(H) :=
  cbv [bind ret raise block gets modify or_raise or_reraise] in H.

(** Reads attributes off an object that is given field by field. *)
Ltac read_fields :=
  cbv [coord_should_stop num_threads max_queue shuffle continuous dprep_dict
       daug_dict interrupted feed_dict batch_size n_samples balanced_classes
       batch_ids_queue feed_dict_queue index_array batches batch_index
       data_status threads waiters np_random
       with_coord_should_stop with_interrupted with_batch_ids_queue
       with_feed_dict_queue with_index_array with_batches with_batch_index
       with_data_status with_threads with_waiters with_np_random
       state_of option_map negb].

(** Without shuffling, [next_batch_ids] returns the batch [ids_after]
    describes and leaves the cursor there, or returns no batch at all. *)

Tactic Notation "read_fields" "in" hyp(H) :=
  cbv [coord_should_stop num_threads max_queue shuffle continuous dprep_dict
       daug_dict interrupted feed_dict batch_size n_samples balanced_classes
       batch_ids_queue feed_dict_queue index_array batches batch_index
       data_status threads waiters np_random
       with_coord_should_stop with_interrupted with_batch_ids_queue
       with_feed_dict_queue with_index_array with_batches with_batch_index
       with_data_status with_threads with_waiters with_np_random
       state_of option_map negb] in H.

Ltac refute_batch :=
  let Heq := fresh "Heq" in
  intros ? ? Heq; cbn in Heq; discriminate.

Lemma next_batch_ids_unshuffled : forall draw balanced self,
  shuffle self = false ->
  match ids_after (batches self) (index_array self) (continuous self)
                  (batch_index self) with
  | Some (ids, i') =>
      exists self',
        next_batch_ids draw balanced self = Returns (Some ids) self' /\
        batch_index self' = i'
  | None =>
      forall ids self',
        next_batch_ids draw balanced self <> Returns (Some ids) self'
  end.
Proof.
  intros draw balanced self Hsh. destruct self; cbn in Hsh; subst.
  unfold next_batch_ids, ids_after, ids_at, current_batch_ids, reset_batches,
    reset_balanced_batches, stop.
  run_m. read_fields.
  destruct (batch_index0 + 1 =? Z.of_nat (length batches0)).
  - destruct continuous0; read_fields.
    + destruct balanced_classes0; read_fields;
        (destruct (Py.getitem batches0 (-1)) as [[| p ind] |]; read_fields;
         [ refute_batch
         | destruct (Py.take index_array0 (p :: ind)); read_fields;
           [ eexists; split; reflexivity | refute_batch ]
         | refute_batch ]).
    + match goal with
      | |- context [put_sentinels ?k ?s] => destruct (put_sentinels k s)
      end; refute_batch.
  - destruct (Py.getitem batches0 (batch_index0 + 1)) as [[| p ind] |];
      read_fields;
      [ refute_batch
      | destruct (Py.take index_array0 (p :: ind)); read_fields;
        [ eexists; split; reflexivity | refute_batch ]
      | refute_batch ].
Qed.

(** So the batches produced are those of the plan, read from the cursor. *)
Lemma produced_planned : forall draw balanced n self,
  shuffle self = false ->
  produced draw balanced n self =
  planned n (batches self) (index_array self) (continuous self)
          (batch_index self).
Proof.
  intros draw balanced n; induction n as [| n IH]; intros self Hsh.
  - reflexivity.
  - cbn [produced planned].
    pose proof (next_batch_ids_unshuffled draw balanced self Hsh) as Hn.
    pose proof (stable_next_batch_ids draw balanced self) as Hk.
    destruct (ids_after (batches self) (index_array self) (continuous self)
                        (batch_index self)) as [[ids i'] |].
    + destruct Hn as (self' & Hret & Hi). rewrite Hret in Hk |- *.
      cbn [state_of] in Hk.
      pose proof (keeps_shuffle _ _ Hk) as Hsh'.
      destruct Hk as [Hset Hplan]. destruct (Hplan Hsh) as [Hb Hia].
      rewrite IH by congruence.
      unfold settings in Hset. injection Hset as _ _ _ Hc _ _ _ _.
      rewrite Hb, Hia, Hc, Hi. reflexivity.
    + destruct (next_batch_ids draw balanced self) as [[ids |] s1 | e s1 | s1];
        try reflexivity.
      exfalso; exact (Hn ids s1 eq_refl).
Qed.

Lemma planned_same_plan : forall n self self' i,
  keeps self self' -> shuffle self = false ->
  planned n (batches self') (index_array self') (continuous self') i =
  planned n (batches self) (index_array self) (continuous self) i.
Proof.
  intros n self self' i [Hset Hplan] Hsh.
  destruct (Hplan Hsh) as [Hb Hia].
  unfold settings in Hset. injection Hset as _ _ _ Hc _ _ _ _.
  now rewrite Hb, Hia, Hc.
Qed.

Lemma reset_cursor : forall self, batch_index (state_of (reset self)) = -1.
Proof. intros []; reflexivity. Qed.

Lemma start_cursor : forall rs self,
  batch_index (state_of (start rs self)) = batch_index self.
Proof.
  intros rs self. unfold start, clear_queues. run_m.
  destruct self, rs; reflexivity.
Qed.

(** C8, as the code has it.  Take a pipeline without shuffling whose cursor
    is at -1, as construction leaves it.  However its threads have run and
    whatever was called on it since, once [reset] is called, and whether or
    not [start] is called after it, successive calls of [next_batch_ids]
    produce the index batches they produced the first time; the batch plan
    and the sample index array are still those of the first pass. *)
Theorem unshuffled_reset_replays_batches :
  forall draw balanced (evs : list event) (rs : bool) (n : nat) (self : t),
  shuffle self = false ->
  batch_index self = -1 ->
  produced draw balanced n
    (state_of (reset (snd (run draw balanced evs self)))) =
  produced draw balanced n self /\
  produced draw balanced n
    (state_of (start rs (state_of (reset (snd (run draw balanced evs self)))))) =
  produced draw balanced n self /\
  batches (snd (run draw balanced evs self)) = batches self /\
  index_array (snd (run draw balanced evs self)) = index_array self.
Proof.
  intros draw balanced evs rs n self Hsh Hcur.
  set (later := snd (run draw balanced evs self)).
  assert (Hlater : keeps self later) by apply keeps_run.
  assert (Hreset : keeps self (state_of (reset later))).
  { eapply keeps_trans; [exact Hlater | apply stable_reset]. }
  assert (Hstart : keeps self (state_of (start rs (state_of (reset later))))).
  { eapply keeps_trans; [exact Hreset | apply stable_start]. }
  repeat split.
  - rewrite !produced_planned;
      [| exact Hsh | rewrite (keeps_shuffle _ _ Hreset); exact Hsh].
    rewrite reset_cursor, Hcur. now apply planned_same_plan.
  - rewrite !produced_planned;
      [| exact Hsh | rewrite (keeps_shuffle _ _ Hstart); exact Hsh].
    rewrite start_cursor, reset_cursor, Hcur. now apply planned_same_plan.
  - destruct Hlater as [_ Hplan]. now destruct (Hplan Hsh).
  - destruct Hlater as [_ Hplan]. now destruct (Hplan Hsh).
Qed.

(** The statement above for four samples in batches of two, after a whole
    pass was produced and consumed. *)
Lemma reset_replays_after_a_pass :
  produced no_shuffle any_balanced 5
    (state_of (reset (snd (run no_shuffle any_balanced
                               (each_thread_in_turn ++ [call_next None])
                               (fresh 4 2 false))))) =
  produced no_shuffle any_balanced 5 (fresh 4 2 false) /\
  produced no_shuffle any_balanced 5
    (state_of (start true
       (state_of (reset (snd (run no_shuffle any_balanced
                                  (each_thread_in_turn ++ [call_next None])
                                  (fresh 4 2 false))))))) =
  produced no_shuffle any_balanced 5 (fresh 4 2 false) /\
  batches (snd (run no_shuffle any_balanced
                    (each_thread_in_turn ++ [call_next None])
                    (fresh 4 2 false))) = batches (fresh 4 2 false) /\
  index_array (snd (run no_shuffle any_balanced
                        (each_thread_in_turn ++ [call_next None])
                        (fresh 4 2 false))) = index_array (fresh 4 2 false).
Proof.
  apply (unshuffled_reset_replays_batches no_shuffle any_balanced
           (each_thread_in_turn ++ [call_next None]) true 5 (fresh 4 2 false));
    reflexivity.
Defined.

(** C8, refuted as stated.  [start] does not move the cursor.  Four samples
    in batches of two, no shuffling: the first pass produces [0,1] and
    [2,3] and leaves the cursor at 2; after a new [start] without [reset],
    [next_batch_ids] moves the cursor to 3 and fails on [batches[3]], so no
    batch is produced. *)
Lemma start_alone_does_not_replay :
  shuffle (fresh 4 2 false) = false /\
  produced no_shuffle any_balanced 2 (fresh 4 2 false) = [[0; 1]; [2; 3]] /\
  batch_index pass_finished = 2 /\
  (exists self',
     next_batch_ids no_shuffle any_balanced (state_of (start true pass_finished))
     = Raises Py.IndexError self') /\
  produced no_shuffle any_balanced 2 (state_of (start true pass_finished)) = [] /\
  produced no_shuffle any_balanced 2 (state_of (start true pass_finished)) <>
  produced no_shuffle any_balanced 2 (fresh 4 2 false).
Proof.
  split; [reflexivity |].
  split; [vm_compute; reflexivity |].
  split; [vm_compute; reflexivity |].
  split; [eexists; vm_compute; reflexivity |].
  split; [vm_compute; reflexivity |].
  vm_compute; discriminate.
Qed.

(** ** Continuous mode *)

Lemma getitem_last : forall (A : Type) (front : list A) (x : A),
  Py.getitem (front ++ [x]) (-1) = Some x.
Proof.
  intros A front x. unfold Py.getitem.
  rewrite length_app; cbn [length].
  replace (Z.of_nat (length front + 1)) with (Z.of_nat (length front) + 1)
    by lia.
  destruct (Z.leb_spec 0 (-1)) as [Hneg | _]; [lia |]. cbn [andb].
  destruct (Z.leb_spec (- (Z.of_nat (length front) + 1)) (-1)) as [_ | Hlt];
    [| lia].
  cbn [andb Z.ltb Z.compare].
  replace (Z.to_nat (-1 + (Z.of_nat (length front) + 1))) with (length front)
    by lia.
  rewrite nth_error_app2 by lia. now rewrite Nat.sub_diag.
Qed.

(** In continuous mode without shuffling, the call of [next_batch_ids] that
    follows the last batch of the plan returns that last batch once more:
    the plan is reset, the cursor is at -1, and [batches[-1]] is read. *)
Lemma continuous_wrap_reads_last_batch :
  forall draw balanced self front p ind ids,
  shuffle self = false ->
  continuous self = true ->
  batches self = front ++ [p :: ind] ->
  batch_index self = Z.of_nat (length front) ->
  Py.take (index_array self) (p :: ind) = Some ids ->
  exists self',
    next_batch_ids draw balanced self = Returns (Some ids) self' /\
    batch_index self' = -1.
Proof.
  intros draw balanced self front p ind ids Hsh Hc Hb Hi Htake.
  pose proof (next_batch_ids_unshuffled draw balanced self Hsh) as Hn.
  unfold ids_after, ids_at in Hn. rewrite Hb, Hi, Hc in Hn.
  rewrite length_app in Hn; cbn [length] in Hn.
  replace (Z.of_nat (length front) + 1 =? Z.of_nat (length front + 1))
    with true in Hn by (symmetry; apply Z.eqb_eq; lia).
  rewrite getitem_last, Htake in Hn. exact Hn.
Qed.

(** C1, on the code.  Four samples in batches of two, continuous, no
    shuffling: one epoch is the two batches [0,1] and [2,3].  The third
    call of [next_batch_ids] returns [2,3] again and not [0,1], and so does
    the third [next()] of the consumer when the producer and a worker have
    run three turns each. *)
Theorem continuous_third_batch_is_the_last_again :
  batches (fresh 4 2 true) = [[0; 1]; [2; 3]] /\
  produced no_shuffle any_balanced 3 (fresh 4 2 true) =
    [[0; 1]; [2; 3]; [2; 3]] /\
  fst (play [call_start true; thread_runs 0 3; thread_runs 1 3;
             call_next None; call_next None; call_next None]
            (fresh 4 2 true)) =
    [call_returned;
     next_returned (rows_of [0; 1]);
     next_returned (rows_of [2; 3]);
     next_returned (rows_of [2; 3])].
Proof. repeat split; vm_compute; reflexivity. Qed.

(** ** End of stream *)

(** C2, on the code.  Ten samples in batches of four, not continuous, no
    shuffling.  The plan is [0,1,2,3], [4,5,6,7], [8,9] and
    [next_batch_ids] yields these; but the producer loop asserts that a
    batch has [batch_size] ids and dies on the third, before putting it on
    the index queue and without [stop] having been called.  Two calls of
    [next] return the first two batches; the third times out, or waits for
    ever without a timeout: neither [8,9] nor the end-of-stream sentinel
    ever arrives. *)
Theorem short_last_batch_kills_the_producer :
  batches (fresh 10 4 false) = [[0; 1; 2; 3]; [4; 5; 6; 7]; [8; 9]] /\
  produced no_shuffle any_balanced 4 (fresh 10 4 false) =
    [[0; 1; 2; 3]; [4; 5; 6; 7]; [8; 9]] /\
  (exists self',
     fill_batch_ids_queue no_shuffle any_balanced 3
       (state_of (start true (fresh 10 4 false)))
     = Raises Py.AssertionError self' /\
     Py.items (batch_ids_queue self') =
       [Py.Item [0; 1; 2; 3]; Py.Item [4; 5; 6; 7]] /\
     waiters self' = []) /\
  fst (play (each_thread_in_turn ++
             [call_next None; call_next None; call_next (Some 1)])
            (fresh 10 4 false)) =
    [call_returned;
     next_returned (rows_of [0; 1; 2; 3]);
     next_returned (rows_of [4; 5; 6; 7]);
     call_raised Py.QueueEmpty] /\
  fst (play (each_thread_in_turn ++
             [call_next None; call_next None; call_next None])
            (fresh 10 4 false)) =
    [call_returned;
     next_returned (rows_of [0; 1; 2; 3]);
     next_returned (rows_of [4; 5; 6; 7]);
     call_hangs].
Proof.
  split; [vm_compute; reflexivity |].
  split; [vm_compute; reflexivity |].
  split; [eexists; split; [vm_compute; reflexivity | split; reflexivity] |].
  split; vm_compute; reflexivity.
Qed.

(** When the batch size divides the number of samples the same schedule
    reaches the end of the stream: eight samples in batches of four give
    two batches and then the sentinel. *)
Lemma full_batches_reach_the_sentinel :
  fst (play (each_thread_in_turn ++
             [call_next None; call_next None; call_next None])
            (fresh 8 4 false)) =
    [call_returned;
     next_returned (rows_of [0; 1; 2; 3]);
     next_returned (rows_of [4; 5; 6; 7]);
     next_returned Py.Sentinel].
Proof. vm_compute; reflexivity. Qed.

(** ** The sentinels of [stop] *)









(** ** The labels read by the index producer *)

Lemma keeps_feed_dict : forall s s', keeps s s' ->
  feed_dict s' = feed_dict s /\ batch_size s' = batch_size s.
Proof.
  intros s s' [H _]. unfold settings in H.
  injection H as _ _ _ _ Hf Hb _ _. now split.
Qed.

(** C9, as the code has it.  Take a turn of the producer loop whose call of
    [next_batch_ids] has returned a batch [ids], whether [balanced_classes]
    is set or not.  The turn first evaluates
    [feed_dict.values()[1][ids].argmax(1)]: if that fails the turn raises
    the same exception with nothing put on the index queue; only if it
    succeeds is the length of the batch asserted and the batch put.  That
    it succeeds requires a second value with at least two axes, not two
    exactly. *)
Theorem producer_turn_reads_labels_first :
  forall draw balanced (self : t) (ids : list Z) (s1 : t),
  coord_should_stop self = false ->
  interrupted self = false ->
  next_batch_ids draw balanced self = Returns (Some ids) s1 ->
  fill_batch_ids_queue_turn draw balanced self =
    match batch_labels (feed_dict self) ids with
    | inl e => Raises e s1
    | inr _ =>
        if Z.of_nat (length ids) =? batch_size self then
          match Py.put (batch_ids_queue s1) (Py.Item ids) with
          | Some q' => Returns Continue (with_batch_ids_queue s1 q')
          | None => Blocks s1
          end
        else Raises Py.AssertionError s1
    end /\
  (forall labels,
     batch_labels (feed_dict self) ids = inr labels ->
     exists y,
       nth_error (values (feed_dict self)) 1 = Some y /\
       (2 <= Py.ndim y)%nat).
Proof.
  intros draw balanced self ids s1 Hstop Hint Hnext.
  pose proof (stable_next_batch_ids draw balanced self) as Hk.
  rewrite Hnext in Hk. cbn [state_of] in Hk.
  apply keeps_feed_dict in Hk. destruct Hk as [Hfd Hbs].
  split.
  - unfold fill_batch_ids_queue_turn, keep_running, second_value. run_m.
    rewrite Hstop, Hint. cbn [negb andb]. rewrite Hnext, Hfd.
    unfold batch_labels.
    destruct (nth_error (values (feed_dict self)) 1) as [y |]; [| reflexivity].
    destruct (Py.index y ids) as [picked |]; [| reflexivity].
    destruct (Py.argmax1 picked) as [e | labels]; [reflexivity |].
    rewrite Hbs.
    destruct (Z.of_nat (length ids) =? batch_size self); cbn [negb];
      [| reflexivity].
    destruct (Py.put (batch_ids_queue s1) (Py.Item ids)); reflexivity.
  - intros labels Hl. unfold batch_labels in Hl.
    destruct (nth_error (values (feed_dict self)) 1) as [y |];
      [| discriminate].
    exists y. split; [reflexivity |].
    destruct (Py.index y ids) as [picked |] eqn:Hpick; [| discriminate].
    destruct y as [xs | rows | inner blocks]; cbn in Hpick |- *.
    + destruct (Py.take xs ids); [| discriminate].
      injection Hpick as <-. discriminate Hl.
    + lia.
    + destruct (Py.take blocks ids); [| discriminate].
      injection Hpick as <-. cbn in Hl.
      destruct inner; [discriminate Hl | cbn; lia].
Qed.

(** The statement above at the first turn of the producer of four samples in
    batches of two, which are batched uniformly. *)
Lemma first_turn_reads_the_labels :
  balanced_classes (fresh 4 2 false) = false /\
  fill_batch_ids_queue_turn no_shuffle any_balanced (fresh 4 2 false) =
    Returns Continue
      (with_batch_ids_queue (with_batch_index (fresh 4 2 false) 0)
         (Py.mkQueue 32 [Py.Item [0; 1]])) /\
  exists y,
    nth_error (values (feed_dict (fresh 4 2 false))) 1 = Some y /\
    (2 <= Py.ndim y)%nat.
Proof.
  split; [reflexivity |].
  destruct (producer_turn_reads_labels_first no_shuffle any_balanced
              (fresh 4 2 false) [0; 1] (with_batch_index (fresh 4 2 false) 0))
    as [Hturn Hy]; try (vm_compute; reflexivity).
  split.
  - rewrite Hturn. vm_compute. reflexivity.
  - apply (Hy (Py.Vec [0; 1])). vm_compute. reflexivity.
Defined.

(** C9, refuted as stated.  The second value need not have two axes: with
    labels of three axes (four samples, two classes, a trailing axis of
    length one) the first turn of the producer takes the argmax along
    axis 1 and puts the batch [0,1] on the index queue. *)
Lemma three_axis_labels_feed_batches :
  exists y self',
    nth_error (values (feed_dict deep_labels)) 1 = Some y /\
    Py.ndim y = 3%nat /\
    batch_labels (feed_dict deep_labels) [0; 1] = inr (Py.Mat [[0]; [1]]) /\
    fill_batch_ids_queue_turn no_shuffle any_balanced deep_labels =
      Returns Continue self' /\
    Py.items (batch_ids_queue self') = [Py.Item [0; 1]].
Proof.
  eexists; eexists.
  split; [reflexivity |].
  split; [reflexivity |].
  split; [vm_compute; reflexivity |].
  split; [vm_compute; reflexivity | reflexivity].
Qed.

(** Uniform batching of a dataset without labels: the plan exists, and the
    first turn of the producer fails on [feed_dict.values()[1]] with
    nothing put. *)
Lemma inputs_only_feed_no_batch :
  exists self self',
    init no_shuffle any_balanced (inputs_only 4) false 2 8 32 false false false
         None None None false = Returns tt self /\
    batches self = [[0; 1]; [2; 3]] /\
    fill_batch_ids_queue_turn no_shuffle any_balanced self =
      Raises Py.IndexError self' /\
    Py.items (batch_ids_queue self') = [].
Proof.
  eexists; eexists.
  split; [vm_compute; reflexivity |].
  split; [reflexivity |].
  split; [vm_compute; reflexivity | reflexivity].
Qed.

(** * Further properties of the code *)

(** ** The status over an epoch *)

Section StatusEpoch.

Import DataFlowStatus.

Lemma update_sizes : forall st,
  batch_size (update st) = batch_size st /\ n_samples (update st) = n_samples st.
Proof.
  intros [s e c b n]; unfold update; cbn.
  destruct (Z.min ((s + 1) * b) n =? n); split; reflexivity.
Qed.

Lemma update_inside : forall st,
  (step st + 1) * batch_size st < n_samples st ->
  step (update st) = step st + 1 /\ epoch (update st) = epoch st /\
  current_iter (update st) = (step st + 1) * batch_size st.
Proof.
  intros [s e c b n]; unfold update; cbn. intros H.
  destruct (Z.eqb_spec (Z.min ((s + 1) * b) n) n) as [Heq | Hne]; [lia |].
  cbn. repeat split. lia.
Qed.

Lemma update_at_end : forall st,
  n_samples st <= (step st + 1) * batch_size st ->
  step (update st) = 0 /\ epoch (update st) = epoch st + 1 /\
  current_iter (update st) = n_samples st.
Proof.
  intros [s e c b n]; unfold update; cbn. intros H.
  destruct (Z.eqb_spec (Z.min ((s + 1) * b) n) n) as [Heq | Hne]; [| lia].
  cbn. repeat split. lia.
Qed.

Lemma updates_sizes : forall k st,
  batch_size (updates k st) = batch_size st /\
  n_samples (updates k st) = n_samples st.
Proof.
  induction k as [| k IH]; intros st; [split; reflexivity |].
  cbn [updates].
  destruct (update_sizes (updates k st)) as [Hb Hn].
  destruct (IH st) as [Hb' Hn']. split; congruence.
Qed.

(** X1.  From the start of an epoch (step 0) and for positive [batch_size]
    and [n_samples]: as long as [k * batch_size < n_samples], [k] updates
    leave the step at [k] and the epoch where it was; the update that
    reaches [n_samples] increments the epoch, puts the step back to 0 and
    leaves [current_iter] at [n_samples].  So an epoch is counted every
    [ceil (n_samples / batch_size)] updates. *)
Theorem epoch_counted_every_ceil_updates : forall (st : DataFlowStatus.t) (k : nat),
  0 < batch_size st -> 0 < n_samples st -> step st = 0 ->
  Z.of_nat k * batch_size st < n_samples st ->
  (step (updates k st) = Z.of_nat k /\ epoch (updates k st) = epoch st) /\
  (n_samples st <= (Z.of_nat k + 1) * batch_size st ->
   step (updates (S k) st) = 0 /\
   epoch (updates (S k) st) = epoch st + 1 /\
   current_iter (updates (S k) st) = n_samples st).
Proof.
  intros st k Hb Hn Hs.
  assert (Hin : forall j : nat, Z.of_nat j * batch_size st < n_samples st ->
                step (updates j st) = Z.of_nat j /\ epoch (updates j st) = epoch st).
  { induction j as [| j IH]; intros Hj.
    - cbn. split; [exact Hs | reflexivity].
    - assert (Hj' : Z.of_nat j * batch_size st < n_samples st) by nia.
      destruct (IH Hj') as [Hstep Hep].
      destruct (updates_sizes j st) as [Hbs Hns].
      destruct (update_inside (updates j st)) as (H1 & H2 & _).
      { rewrite Hstep, Hbs, Hns. nia. }
      cbn [updates]. split; [| congruence].
      rewrite H1, Hstep. lia. }
  intros Hk. split; [exact (Hin k Hk) |].
  intros Hend. destruct (Hin k Hk) as [Hstep Hep].
  destruct (updates_sizes k st) as [Hbs Hns].
  destruct (update_at_end (updates k st)) as (H1 & H2 & H3).
  { rewrite Hstep, Hbs, Hns. exact Hend. }
  cbn [updates]. repeat split; congruence.
Qed.

(** The statement above for ten samples in batches of four: two updates
    stay in the epoch, the third ends it. *)
Lemma epoch_of_ten_by_four :
  (step (updates 2 (DataFlowStatus.init 4 10)) = 2 /\
   epoch (updates 2 (DataFlowStatus.init 4 10)) = 0) /\
  step (updates 3 (DataFlowStatus.init 4 10)) = 0 /\
  epoch (updates 3 (DataFlowStatus.init 4 10)) = 1 /\
  current_iter (updates 3 (DataFlowStatus.init 4 10)) = 10.
Proof.
  destruct (epoch_counted_every_ceil_updates (DataFlowStatus.init 4 10) 2)
    as [Hin Hend]; [cbn; lia | cbn; lia | reflexivity | cbn; lia |].
  split; [exact Hin | apply Hend; cbn; lia].
Defined.

(** X2.  For a non-negative [batch_size] and a positive [n_samples], a new
    status satisfies [status_ok], and [update] and [reset] keep it: the step
    is never negative, [step * batch_size] stays below [n_samples], and
    [current_iter] stays within [0, n_samples]. *)
Theorem status_ok_is_invariant : forall (b n : Z) (st : DataFlowStatus.t),
  0 <= b -> 0 < n ->
  status_ok (DataFlowStatus.init b n) /\
  (batch_size st = b -> n_samples st = n -> status_ok st ->
   status_ok (update st) /\ status_ok (DataFlowStatus.reset st)).
Proof.
  intros b n st Hb Hn. split.
  - unfold status_ok; cbn. lia.
  - intros Hbs Hns (Hs & Hlt & Hc). split.
    + destruct (update_sizes st) as [Hb' Hn'].
      destruct (Z_lt_le_dec ((step st + 1) * batch_size st) (n_samples st))
        as [Hin | Hend].
      * destruct (update_inside st Hin) as (H1 & H2 & H3).
        unfold status_ok. rewrite H1, H3, Hb', Hn'. nia.
      * destruct (update_at_end st Hend) as (H1 & H2 & H3).
        unfold status_ok. rewrite H1, H3, Hb', Hn'. lia.
    + destruct st as [s e c b' n']; unfold status_ok in *; cbn in *. lia.
Qed.

(** The statement above at a status of ten samples in batches of four. *)
Lemma status_ok_of_ten_by_four :
  status_ok (update (DataFlowStatus.init 4 10)) /\
  status_ok (DataFlowStatus.reset (DataFlowStatus.init 4 10)).
Proof.
  apply (proj2 (status_ok_is_invariant 4 10 (DataFlowStatus.init 4 10)
                  ltac:(lia) ltac:(lia)));
    [reflexivity | reflexivity | unfold status_ok; cbn; lia].
Defined.

End StatusEpoch.

(** ** The cursor of the index producer *)

Lemma getitem_beyond : forall (A : Type) (l : list A) (i : Z),
  Z.of_nat (length l) <= i -> Py.getitem l i = None.
Proof.
  intros A l i H. unfold Py.getitem.
  destruct (Z.ltb_spec i (Z.of_nat (length l))) as [Hlt | _]; [lia |].
  rewrite andb_false_r.
  destruct (Z.ltb_spec i 0) as [Hneg | _]; [lia |].
  now rewrite andb_false_r.
Qed.

Lemma getitem_middle : forall (A : Type) (front rest : list A) (x : A),
  Py.getitem (front ++ x :: rest) (Z.of_nat (length front)) = Some x.
Proof.
  intros A front rest x. unfold Py.getitem.
  rewrite length_app; cbn [length].
  destruct (Z.leb_spec 0 (Z.of_nat (length front))) as [_ | H]; [| lia].
  destruct (Z.ltb_spec (Z.of_nat (length front))
                       (Z.of_nat (length front + S (length rest))))
    as [_ | H]; [| lia].
  cbn [andb]. rewrite Nat2Z.id, nth_error_app2 by lia.
  now rewrite Nat.sub_diag.
Qed.

(** X3.  A cursor at or past the end of the plan is not recovered from: in
    either mode [next_batch_ids] moves it one further and raises
    [IndexError], without putting anything on a queue or launching a
    waiter.  This is the state a pass that has ended leaves, so a pipeline
    is not usable again before [reset]. *)
Theorem cursor_past_the_end_raises : forall draw balanced (self : t),
  Z.of_nat (length (batches self)) <= batch_index self ->
  exists self',
    next_batch_ids draw balanced self = Raises Py.IndexError self' /\
    batch_index self' = batch_index self + 1 /\
    batch_ids_queue self' = batch_ids_queue self /\
    feed_dict_queue self' = feed_dict_queue self /\
    waiters self' = waiters self.
Proof.
  intros draw balanced self H. destruct self; cbn in H.
  unfold next_batch_ids, current_batch_ids. run_m. read_fields.
  destruct (Z.eqb_spec (batch_index0 + 1) (Z.of_nat (length batches0)))
    as [Heq | _]; [lia |].
  rewrite getitem_beyond by lia.
  eexists; repeat split.
Qed.

(** The statement above at the pipeline whose pass has ended. *)
Lemma ended_pass_raises :
  exists self',
    next_batch_ids no_shuffle any_balanced pass_finished
    = Raises Py.IndexError self' /\
    batch_index self' = batch_index pass_finished + 1 /\
    batch_ids_queue self' = batch_ids_queue pass_finished /\
    feed_dict_queue self' = feed_dict_queue pass_finished /\
    waiters self' = waiters pass_finished.
Proof.
  apply (cursor_past_the_end_raises no_shuffle any_balanced pass_finished).
  vm_compute; discriminate.
Defined.

(** X4.  When the plan is exhausted and the pipeline is not continuous,
    [next_batch_ids] calls [stop] before it returns [False]: if the index
    queue has room, the call returns no batch, [num_threads] sentinels are
    behind what the index queue held and a waiter is launched; the plan,
    the index array and the data queue are as before and the cursor stays
    at the length of the plan. *)
Theorem end_of_plan_calls_stop : forall draw balanced (self : t),
  continuous self = false ->
  batch_index self + 1 = Z.of_nat (length (batches self)) ->
  Py.maxsize (batch_ids_queue self) <= 0 \/
  Z.of_nat (length (Py.items (batch_ids_queue self))) +
    Z.max 0 (num_threads self) <= Py.maxsize (batch_ids_queue self) ->
  exists self',
    next_batch_ids draw balanced self = Returns None self' /\
    batch_index self' = Z.of_nat (length (batches self)) /\
    Py.items (batch_ids_queue self') =
      Py.items (batch_ids_queue self) ++
      repeat Py.Sentinel (Z.to_nat (num_threads self)) /\
    waiters self' = waiters self ++ [Alive] /\
    feed_dict_queue self' = feed_dict_queue self /\
    batches self' = batches self /\
    index_array self' = index_array self.
Proof.
  intros draw balanced self Hc Hi Hroom.
  set (s1 := with_batch_index self (batch_index self + 1)).
  assert (Hput : exists s2,
             put_sentinels (Z.to_nat (num_threads s1)) s1 = Returns tt s2).
  { apply put_sentinels_with_room. subst s1. destruct self; cbn in *.
    destruct Hroom as [H | H]; [left; exact H | right; lia]. }
  destruct Hput as [s2 Hs2].
  pose proof (put_sentinels_returns _ _ _ Hs2) as (Hs & Hm & Hit).
  exists (with_waiters s2 (waiters s2 ++ [Alive])).
  unfold next_batch_ids, stop. run_m. fold s1.
  assert (Hcur : batch_index s1 = batch_index self + 1)
    by (subst s1; destruct self; reflexivity).
  assert (Hlen : batches s1 = batches self)
    by (subst s1; destruct self; reflexivity).
  assert (Hcont : continuous s1 = false)
    by (subst s1; destruct self; exact Hc).
  rewrite Hcur, Hlen, Hi, Z.eqb_refl, Hcont. cbn [negb]. rewrite Hs2.
  split; [reflexivity |].
  rewrite Hs. subst s1. destruct self; cbn in *.
  repeat split; try assumption; try lia.
Qed.

(** The statement above at the last call of the pass of four samples in
    batches of two. *)
Lemma last_call_of_the_pass_stops :
  exists self',
    next_batch_ids no_shuffle any_balanced
      (with_batch_index (fresh 4 2 false) 1) = Returns None self' /\
    batch_index self' = 2 /\
    Py.items (batch_ids_queue self') = repeat Py.Sentinel 8 /\
    waiters self' = [Alive] /\
    feed_dict_queue self' = feed_dict_queue (fresh 4 2 false) /\
    batches self' = [[0; 1]; [2; 3]] /\
    index_array self' = [0; 1; 2; 3].
Proof.
  apply (end_of_plan_calls_stop no_shuffle any_balanced
           (with_batch_index (fresh 4 2 false) 1));
    [reflexivity | reflexivity | right; vm_compute; discriminate].
Defined.

(** X5.  In continuous mode [next_batch_ids] never calls [stop] and never
    reports the end of the data: whatever the plan, the cursor and the
    other settings, it never returns [False] and never waits, and it leaves
    both queues and the waiters as they were. *)
Theorem continuous_never_stops : forall draw balanced (self : t),
  continuous self = true ->
  returns_false (next_batch_ids draw balanced self) = false /\
  waits (next_batch_ids draw balanced self) = false /\
  batch_ids_queue (state_of (next_batch_ids draw balanced self)) =
    batch_ids_queue self /\
  feed_dict_queue (state_of (next_batch_ids draw balanced self)) =
    feed_dict_queue self /\
  waiters (state_of (next_batch_ids draw balanced self)) = waiters self.
Proof.
  intros draw balanced self Hc. destruct self; cbn in Hc; subst.
  unfold next_batch_ids, current_batch_ids, reset_batches,
    reset_balanced_batches, shuffle_samples, make_batches,
    make_balanced_batches, second_value.
  run_m. read_fields.
  repeat destruct_inner; repeat split.
Qed.

(** The statement above at the continuous pipeline of four samples. *)
Lemma continuous_sample_never_stops :
  returns_false (next_batch_ids no_shuffle any_balanced (fresh 4 2 true)) = false /\
  waits (next_batch_ids no_shuffle any_balanced (fresh 4 2 true)) = false /\
  batch_ids_queue (state_of (next_batch_ids no_shuffle any_balanced (fresh 4 2 true))) =
    batch_ids_queue (fresh 4 2 true) /\
  feed_dict_queue (state_of (next_batch_ids no_shuffle any_balanced (fresh 4 2 true))) =
    feed_dict_queue (fresh 4 2 true) /\
  waiters (state_of (next_batch_ids no_shuffle any_balanced (fresh 4 2 true))) =
    waiters (fresh 4 2 true).
Proof.
  apply (continuous_never_stops no_shuffle any_balanced (fresh 4 2 true)).
  reflexivity.
Defined.

(** ** A whole pass *)

Lemma planned_rest : forall (ia : list Z) (rest : list (list Z))
    (out : list (list Z)),
  Forall2 (fun b ids => b <> [] /\ Py.take ia b = Some ids) rest out ->
  forall (front : list (list Z)) (k : nat),
  planned (length rest + k) (front ++ rest) ia false
          (Z.of_nat (length front) - 1) = out.
Proof.
  intros ia rest out H; induction H as [| b ids rest out [Hb Ht] H IH];
    intros front k.
  - destruct k as [| k]; [reflexivity |].
    cbn [length Nat.add planned]. unfold ids_after.
    rewrite app_nil_r.
    replace (Z.of_nat (length front) - 1 + 1 =? Z.of_nat (length front))
      with true by (symmetry; apply Z.eqb_eq; lia).
    reflexivity.
  - cbn [length Nat.add planned]. unfold ids_after, ids_at.
    rewrite length_app; cbn [length].
    replace (Z.of_nat (length front) - 1 + 1) with (Z.of_nat (length front))
      by lia.
    destruct (Z.eqb_spec (Z.of_nat (length front))
                         (Z.of_nat (length front + S (length rest))))
      as [Heq | _]; [lia |].
    rewrite getitem_middle.
    destruct b as [| p ind]; [contradiction |].
    rewrite Ht. cbn [option_map]. f_equal.
    specialize (IH (front ++ [p :: ind]) k).
    rewrite <- app_assoc in IH. cbn [app] in IH.
    rewrite length_app in IH; cbn [length] in IH.
    replace (Z.of_nat (length front + 1) - 1) with (Z.of_nat (length front))
      in IH by lia.
    exact IH.
Qed.

(** X6.  Without shuffling and not continuous, a pass from cursor -1
    produces exactly the batches of the plan, in the order of the plan,
    each one mapped through the sample index array, and nothing after
    them, however many more calls are made: provided no batch of the plan
    is empty and every position of the plan is within the index array. *)
Theorem unshuffled_pass_yields_the_plan :
  forall draw balanced (self : t) (out : list (list Z)) (k : nat),
  shuffle self = false ->
  continuous self = false ->
  batch_index self = -1 ->
  Forall2 (fun b ids => b <> [] /\ Py.take (index_array self) b = Some ids)
          (batches self) out ->
  produced draw balanced (length (batches self) + k) self = out.
Proof.
  intros draw balanced self out k Hsh Hc Hi Hplan.
  rewrite produced_planned by exact Hsh. rewrite Hc, Hi.
  exact (planned_rest (index_array self) (batches self) out Hplan [] k).
Qed.

(** The statement above for ten samples in batches of four. *)
Lemma pass_of_ten_by_four :
  produced no_shuffle any_balanced (length (batches (fresh 10 4 false)) + 5)
           (fresh 10 4 false) =
  [[0; 1; 2; 3]; [4; 5; 6; 7]; [8; 9]].
Proof.
  apply (unshuffled_pass_yields_the_plan no_shuffle any_balanced
           (fresh 10 4 false)); try reflexivity.
  repeat (constructor; [split; [discriminate | reflexivity] |]).
  constructor.
Defined.

(** ** The producer loop of a pipeline that is not continuous *)

Lemma getitem_some_bound : forall (A : Type) (l : list A) (i : Z) (x : A),
  Py.getitem l i = Some x -> i < Z.of_nat (length l).
Proof.
  intros A l i x H. unfold Py.getitem in H.
  destruct (Z.ltb_spec i (Z.of_nat (length l))) as [Hlt | Hge]; [exact Hlt |].
  rewrite andb_false_r in H.
  destruct (Z.ltb_spec i 0) as [Hneg | Hpos]; [lia |].
  rewrite andb_false_r in H. discriminate.
Qed.

(** A turn of the loop after which the loop goes on has moved the cursor to
    the next batch of the plan, which exists. *)
Lemma producer_turn_advances : forall draw balanced (self self' : t),
  continuous self = false ->
  fill_batch_ids_queue_turn draw balanced self = Returns Continue self' ->
  batch_index self' = batch_index self + 1 /\
  batches self' = batches self /\
  continuous self' = false /\
  batch_index self + 1 < Z.of_nat (length (batches self)).
Proof.
  intros draw balanced self self' Hc H. destruct self; cbn in Hc; subst.
  unfold fill_batch_ids_queue_turn, keep_running, next_batch_ids, stop,
    current_batch_ids, second_value in H.
  run_m in H. read_fields in H. read_fields.
  repeat match type of H with
         | context [match ?x with _ => _ end] =>
             lazymatch x with
             | context [match _ with _ => _ end] => fail
             | _ => destruct x eqn:?; read_fields in H; cbn [negb andb] in H
             end
         end; try discriminate.
  injection H as <-. read_fields.
  repeat split.
  match goal with
  | Hg : Py.getitem _ _ = Some _ |- _ => exact (getitem_some_bound _ _ _ _ Hg)
  end.
Qed.

(** X7.  The producer loop of a pipeline that is not continuous ends: from
    a cursor that is at least -1, after at most [len(batches) - cursor]
    turns (and at least one) the loop has been left, by [break], by an
    exception or in a blocking queue operation; it is never still
    running. *)
Theorem finite_producer_loop_ends :
  forall draw balanced (fuel : nat) (self : t),
  continuous self = false ->
  -1 <= batch_index self ->
  Z.max 1 (Z.of_nat (length (batches self)) - batch_index self)
    <= Z.of_nat fuel ->
  still_running (fill_batch_ids_queue draw balanced fuel self) = false.
Proof.
  intros draw balanced fuel; induction fuel as [| fuel IH];
    intros self Hc Hi Hfuel.
  - lia.
  - unfold fill_batch_ids_queue. cbn [while_loop]. unfold bind.
    destruct (fill_batch_ids_queue_turn draw balanced self)
      as [[] s1 | e s1 | s1] eqn:Hturn; try reflexivity.
    destruct (producer_turn_advances _ _ _ _ Hc Hturn) as (Hi1 & Hb1 & Hc1 & Hlt).
    apply (IH s1); [exact Hc1 | lia |]. rewrite Hb1, Hi1. lia.
Qed.

(** The statement above for ten samples in batches of four, where the loop
    ends on the assertion. *)
Lemma producer_of_ten_by_four_ends :
  still_running
    (fill_batch_ids_queue no_shuffle any_balanced 4 (fresh 10 4 false)) = false.
Proof.
  apply (finite_producer_loop_ends no_shuffle any_balanced 4 (fresh 10 4 false));
    [reflexivity | vm_compute; discriminate | vm_compute; discriminate].
Defined.

(** ** Interruption *)





(** ** [stop] before [start] *)

Lemma nth_error_after : forall (A : Type) (l : list A) (x : A),
  nth_error (l ++ [x]) (length l) = Some x.
Proof.
  intros A l x. rewrite nth_error_app2 by lia. now rewrite Nat.sub_diag.
Qed.

Lemma set_waiter_after : forall (ws : list thread_status) (x y : thread_status),
  set_waiter (ws ++ [x]) (length ws) y = ws ++ [y].
Proof.
  induction ws as [| w ws IH]; intros x y; [reflexivity |].
  cbn [app length set_waiter]. now rewrite IH.
Qed.

(** X10.  [self.threads] is only assigned by [start].  On a pipeline that
    was never started, a [stop] that returns has launched a waiter that
    dies with [AttributeError] when it runs: it joins nothing and puts no
    end-of-stream sentinel on the data queue. *)
Theorem stop_before_start_sends_no_end : forall (self s1 : t),
  threads self = None ->
  stop self = Returns tt s1 ->
  waiters (run_waiter (length (waiters self)) s1) =
    waiters self ++ [Died Py.AttributeError] /\
  feed_dict_queue (run_waiter (length (waiters self)) s1) =
    feed_dict_queue self.
Proof.
  intros self s1 Hth Hstop.
  apply stop_returns in Hstop.
  destruct Hstop as (_ & _ & Hfq & Hw & _ & Hth1).
  unfold run_waiter. rewrite Hw, nth_error_after.
  unfold wait_for_threads. run_m. rewrite Hth1, Hth.
  destruct s1; cbn in *. subst.
  split; [apply set_waiter_after | reflexivity].
Qed.

(** The statement above at a pipeline that was built and not started. *)
Lemma unstarted_stop_sends_no_end :
  waiters (run_waiter (length (waiters (fresh 4 2 false)))
                      (state_of (stop (fresh 4 2 false)))) =
    waiters (fresh 4 2 false) ++ [Died Py.AttributeError] /\
  feed_dict_queue (run_waiter (length (waiters (fresh 4 2 false)))
                              (state_of (stop (fresh 4 2 false)))) =
    feed_dict_queue (fresh 4 2 false).
Proof.
  apply (stop_before_start_sends_no_end (fresh 4 2 false)
           (state_of (stop (fresh 4 2 false)))); vm_compute; reflexivity.
Defined.

(** ** Dictionaries and index vectors *)

Lemma dict_get_set_same : forall (V : Type) (d : dict V) (k : key) (v : V),
  dict_get (dict_set d k v) k = Some v.
Proof.
  induction d as [| [k' v'] d IH]; intros k v; cbn.
  - now rewrite String.eqb_refl.
  - destruct (String.eqb k k') eqn:E; cbn; rewrite E; [reflexivity | apply IH].
Qed.

Lemma dict_get_set_other : forall (V : Type) (d : dict V) (k k0 : key) (v : V),
  k <> k0 -> dict_get (dict_set d k0 v) k = dict_get d k.
Proof.
  induction d as [| [k' v'] d IH]; intros k k0 v Hne; cbn.
  - apply String.eqb_neq in Hne. now rewrite Hne.
  - destruct (String.eqb k0 k') eqn:E; cbn.
    + apply String.eqb_eq in E; subst k'.
      apply String.eqb_neq in Hne. now rewrite Hne.
    + destruct (String.eqb k k'); [reflexivity | now apply IH].
Qed.

Lemma dict_set_new : forall (V : Type) (d : dict V) (k : key) (v : V),
  ~ In k (map fst d) -> dict_set d k v = d ++ [(k, v)].
Proof.
  induction d as [| [k' v'] d IH]; intros k v Hnin; cbn; [reflexivity |].
  cbn in Hnin.
  destruct (String.eqb_spec k k') as [-> | Hne]; [tauto |].
  f_equal. apply IH. tauto.
Qed.

Lemma dict_get_absent : forall (V : Type) (d : dict V) (k : key),
  ~ In k (map fst d) -> dict_get d k = None.
Proof.
  induction d as [| [k' v'] d IH]; intros k Hnin; cbn; [reflexivity |].
  cbn in Hnin.
  destruct (String.eqb_spec k k') as [-> | Hne]; [tauto |].
  apply IH. tauto.
Qed.

Lemma take_length : forall (A : Type) (l : list A) (ids : list Z) (xs : list A),
  Py.take l ids = Some xs -> length xs = length ids.
Proof.
  intros A l; induction ids as [| i ids IH]; intros xs H; cbn in H.
  - now injection H as <-.
  - destruct (Py.getitem l i); [| discriminate].
    destruct (Py.take l ids) as [xs' |]; [| discriminate].
    injection H as <-. cbn. f_equal. now apply IH.
Qed.

Lemma index_len : forall (X Y : Py.ndarray) (ids : list Z),
  Py.index X ids = Some Y -> Py.len Y = Z.of_nat (length ids).
Proof.
  intros [xs | rows | inner blocks] Y ids H; cbn in H.
  - destruct (Py.take xs ids) as [ys |] eqn:Ht; [| discriminate].
    injection H as <-. cbn. f_equal. now apply take_length in Ht.
  - destruct (Py.take rows ids) as [ys |] eqn:Ht; [| discriminate].
    injection H as <-. cbn. f_equal. now apply take_length in Ht.
  - destruct (Py.take blocks ids) as [ys |] eqn:Ht; [| discriminate].
    injection H as <-. cbn. f_equal. now apply take_length in Ht.
Qed.

(** ** The worker: slicing *)

Lemma slice_each_shape : forall (fd d : dict Py.ndarray) (ids : list Z),
  slice_each fd ids = Some d ->
  map fst d = map fst fd /\
  Forall (fun kv => Py.len (snd kv) = Z.of_nat (length ids)) d.
Proof.
  induction fd as [| [k X] fd IH]; intros d ids H; cbn in H.
  - injection H as <-. split; [reflexivity | constructor].
  - destruct (Utils.slice_array X ids) as [Y |] eqn:HY; [| discriminate].
    destruct (slice_each fd ids) as [d' |] eqn:Hd; [| discriminate].
    injection H as <-. destruct (IH d' ids Hd) as [Hk Hl].
    split; [cbn; now f_equal |].
    constructor; [cbn; now apply index_len in HY | exact Hl].
Qed.

Lemma slice_keys_fresh_keys :
  forall (fd : dict Py.ndarray) (ids : list Z) (acc : dict Py.ndarray) (self : t),
  NoDup (map fst acc ++ map fst fd) ->
  slice_keys fd ids acc self =
  match slice_each fd ids with
  | Some d => Returns (acc ++ d) self
  | None => Raises Py.IndexError self
  end.
Proof.
  induction fd as [| [k X] fd IH]; intros ids acc self Hnd.
  - cbn. now rewrite app_nil_r.
  - cbn [slice_keys slice_each]. run_m.
    destruct (Utils.slice_array X ids) as [Y |]; [| reflexivity].
    cbn [map fst] in Hnd.
    assert (Hk : ~ In k (map fst acc)).
    { apply NoDup_remove_2 in Hnd. intros Hin. apply Hnd.
      apply in_or_app; now left. }
    rewrite (dict_set_new _ acc k Y Hk).
    rewrite IH.
    + destruct (slice_each fd ids) as [d |]; [| reflexivity].
      now rewrite <- app_assoc.
    + rewrite map_app; cbn [map fst]. rewrite <- app_assoc. exact Hnd.
Qed.

Lemma retrieve_data_slices : forall (batch_ids : list Z) (self : t),
  NoDup (map fst (feed_dict self)) ->
  (retrieve_data batch_ids self =
   match slice_each (feed_dict self) batch_ids with
   | Some d => Returns d self
   | None => Raises Py.IndexError self
   end).
Proof.
  intros batch_ids self Hnd.
  unfold retrieve_data. run_m.
  rewrite slice_keys_fresh_keys by exact Hnd. reflexivity.
Qed.

(** X11.  For a feed dict whose keys are distinct, [retrieve_data] only
    reads the object and either returns a feed dict with the same keys in
    the same order, each value being the rows [batch_ids] of the dataset's
    value and so of length [len(batch_ids)], or raises [IndexError]
    because some value has no such row. *)
Theorem retrieve_data_slices_every_key :
  forall (batch_ids : list Z) (self : t),
  NoDup (map fst (feed_dict self)) ->
  (retrieve_data batch_ids self =
   match slice_each (feed_dict self) batch_ids with
   | Some d => Returns d self
   | None => Raises Py.IndexError self
   end) /\
  (forall d, slice_each (feed_dict self) batch_ids = Some d ->
     map fst d = map fst (feed_dict self) /\
     Forall (fun kv => Py.len (snd kv) = Z.of_nat (length batch_ids)) d).
Proof.
  intros batch_ids self Hnd. split.
  - unfold retrieve_data. run_m.
    rewrite slice_keys_fresh_keys by exact Hnd. reflexivity.
  - intros d Hd. now apply slice_each_shape.
Qed.

(** The statement above at the dataset with mismatched lengths: the rows
    0 and 1 exist in both values, the row 2 only in the first. *)
Lemma mismatch_surfaces_when_sliced :
  retrieve_data [0; 1]
    (state_of (init no_shuffle any_balanced mismatched false 2 8 32 false
                    false false None None None false)) =
  Returns mismatched_rows_0_1
    (state_of (init no_shuffle any_balanced mismatched false 2 8 32 false
                    false false None None None false)) /\
  retrieve_data [2]
    (state_of (init no_shuffle any_balanced mismatched false 2 8 32 false
                    false false None None None false)) =
  Raises Py.IndexError
    (state_of (init no_shuffle any_balanced mismatched false 2 8 32 false
                    false false None None None false)).
Proof.
  assert (Hnd : NoDup (map fst (feed_dict
            (state_of (init no_shuffle any_balanced mismatched false 2 8 32
                            false false false None None None false))))).
  { cbn. repeat constructor; cbn; intuition discriminate. }
  split.
  - exact (proj1 (retrieve_data_slices_every_key [0; 1] _ Hnd)).
  - exact (proj1 (retrieve_data_slices_every_key [2] _ Hnd)).
Defined.

(** ** The worker: transforms *)

Lemma reads_only_slice_keys : forall fd ids acc,
  reads_only (slice_keys fd ids acc).
Proof.
  induction fd as [| [k X] fd IH]; intros ids acc self; cbn [slice_keys].
  - reflexivity.
  - run_m. destruct (Utils.slice_array X ids); [apply IH | reflexivity].
Qed.

Lemma reads_only_retrieve_data : forall ids, reads_only (retrieve_data ids).
Proof. intros ids self. unfold retrieve_data. run_m. apply reads_only_slice_keys. Qed.

Lemma reads_only_apply_all : forall d data, reads_only (apply_all d data).
Proof.
  induction d as [| [k tr] d IH]; intros data self; cbn [apply_all].
  - reflexivity.
  - run_m. destruct (dict_get data k) as [x |]; [| reflexivity].
    destruct (apply tr x); [apply IH | reflexivity].
Qed.

Lemma reads_only_apply_if_any : forall d data, reads_only (apply_if_any d data).
Proof.
  intros [d |] data self; [apply reads_only_apply_all | reflexivity].
Qed.

(** How a worker's turn on an index batch can end, with the object it
    leaves: the sentinel or the batch is off the index queue, and only a
    turn that goes on has put something on the data queue. *)
Lemma worker_turn_on_a_batch : forall (self : t) ids q',
  coord_should_stop self = false -> interrupted self = false ->
  Py.get (batch_ids_queue self) = Some (Py.Item ids, q') ->
  match fill_feed_dict_queue_turn self with
  | Returns Continue self' =>
      exists d0 d1 d2 fq',
        retrieve_data ids (with_batch_ids_queue self q') =
          Returns d0 (with_batch_ids_queue self q') /\
        apply_if_any (daug_dict self) d0 (with_batch_ids_queue self q') =
          Returns d1 (with_batch_ids_queue self q') /\
        apply_if_any (dprep_dict self) d1 (with_batch_ids_queue self q') =
          Returns d2 (with_batch_ids_queue self q') /\
        Py.put (feed_dict_queue self) (Py.Item d2) = Some fq' /\
        self' = with_feed_dict_queue (with_batch_ids_queue self q') fq'
  | Returns Break _ => False
  | Raises _ self' => self' = with_batch_ids_queue self q'
  | Blocks self' => self' = with_batch_ids_queue self q'
  end.
Proof.
  intros self ids q' Hstop Hint Hget.
  unfold fill_feed_dict_queue_turn, keep_running. run_m.
  rewrite Hstop, Hint. cbn [negb andb]. rewrite Hget.
  set (s1 := with_batch_ids_queue self q').
  pose proof (reads_only_retrieve_data ids s1) as R0.
  destruct (retrieve_data ids s1) as [d0 s2 | e s2 | s2] eqn:E0;
    cbn in R0; subst s2;
    try reflexivity.
  assert (Hdaug : daug_dict s1 = daug_dict self)
    by (subst s1; destruct self; reflexivity).
  assert (Hdprep : dprep_dict s1 = dprep_dict self)
    by (subst s1; destruct self; reflexivity).
  assert (Hfq : feed_dict_queue s1 = feed_dict_queue self)
    by (subst s1; destruct self; reflexivity).
  rewrite Hdaug.
  pose proof (reads_only_apply_if_any (daug_dict self) d0 s1) as R1.
  destruct (apply_if_any (daug_dict self) d0 s1) as [d1 s2 | e s2 | s2] eqn:E1;
    cbn in R1; subst s2; try reflexivity.
  rewrite Hdprep.
  pose proof (reads_only_apply_if_any (dprep_dict self) d1 s1) as R2.
  destruct (apply_if_any (dprep_dict self) d1 s1) as [d2 s2 | e s2 | s2] eqn:E2;
    cbn in R2; subst s2; try reflexivity.
  rewrite Hfq.
  destruct (Py.put (feed_dict_queue self) (Py.Item d2)) as [fq' |] eqn:Hput;
    [| reflexivity].
  exists d0, d1, d2, fq'. repeat split; assumption.
Qed.

(** X12.  A worker's turn that raises (an index out of range while slicing,
    a transform's key missing from the batch, a transform that fails) has
    already taken the index batch off the index queue and has put nothing
    on the data queue: the batch is lost and nothing tells the consumer. *)
Theorem failed_worker_turn_loses_the_batch : forall (self self' : t) e,
  fill_feed_dict_queue_turn self = Raises e self' ->
  feed_dict_queue self' = feed_dict_queue self /\
  exists ids,
    Py.items (batch_ids_queue self) =
    Py.Item ids :: Py.items (batch_ids_queue self').
Proof.
  intros self self' e H.
  assert (Hflags : coord_should_stop self = false /\ interrupted self = false).
  { unfold fill_feed_dict_queue_turn, keep_running in H. run_m in H.
    destruct (coord_should_stop self), (interrupted self);
      cbn [negb andb] in H; try discriminate. now split. }
  destruct Hflags as [Hstop Hint].
  destruct (Py.get (batch_ids_queue self)) as [[[ids |] q'] |] eqn:Hget.
  - pose proof (worker_turn_on_a_batch self ids q' Hstop Hint Hget) as Hw.
    rewrite H in Hw. subst self'.
    unfold Py.get in Hget.
    destruct (Py.items (batch_ids_queue self)) as [| x rest] eqn:Hit;
      [discriminate |].
    injection Hget as -> <-. clear H.
    destruct self; cbn in *. split; [reflexivity |].
    exists ids. reflexivity.
  - unfold fill_feed_dict_queue_turn, keep_running in H. run_m in H.
    rewrite Hstop, Hint in H. cbn [negb andb] in H. rewrite Hget in H.
    discriminate.
  - unfold fill_feed_dict_queue_turn, keep_running in H. run_m in H.
    rewrite Hstop, Hint in H. cbn [negb andb] in H. rewrite Hget in H.
    discriminate.
Qed.

(** The statement above at a worker that is given the row 2 of the dataset
    with mismatched lengths. *)
Lemma worker_on_mismatch_loses_the_batch :
  feed_dict_queue (state_of (fill_feed_dict_queue_turn mismatched_row_2_queued)) =
    feed_dict_queue mismatched_row_2_queued /\
  exists ids,
    Py.items (batch_ids_queue mismatched_row_2_queued) =
    Py.Item ids ::
    Py.items (batch_ids_queue
                (state_of (fill_feed_dict_queue_turn mismatched_row_2_queued))).
Proof.
  apply (failed_worker_turn_loses_the_batch mismatched_row_2_queued
           (state_of (fill_feed_dict_queue_turn mismatched_row_2_queued))
           Py.IndexError).
  vm_compute; reflexivity.
Defined.

Lemma apply_all_through :
  forall (d : dict transform) (data data' : dict Py.ndarray) (self self' : t),
  NoDup (map fst d) ->
  apply_all d data self = Returns data' self' ->
  forall k x, dict_get data k = Some x ->
  exists y, through (Some d) k x = Some y /\ dict_get data' k = Some y.
Proof.
  induction d as [| [k0 tr] d IH]; intros data data' self self' Hnd H k x Hk.
  - cbn in H. injection H as <- _. exists x. split; [reflexivity | exact Hk].
  - cbn [apply_all] in H. run_m in H.
    destruct (dict_get data k0) as [x0 |] eqn:Hx0; [| discriminate].
    destruct (apply tr x0) as [y0 |] eqn:Hy0; [| discriminate].
    cbn [map fst] in Hnd. inversion Hnd as [| ? ? Hnin Hnd']; subst.
    cbn [through dict_get].
    destruct (String.eqb_spec k k0) as [-> | Hne].
    + rewrite Hx0 in Hk. injection Hk as ->.
      destruct (IH _ _ _ _ Hnd' H k0 y0 (dict_get_set_same _ data k0 y0))
        as (y & Hy & Hget).
      cbn [through] in Hy. rewrite (dict_get_absent _ d k0 Hnin) in Hy.
      injection Hy as <-. exists y0. split; [exact Hy0 | exact Hget].
    + assert (Hk' : dict_get (dict_set data k0 y0) k = Some x)
        by (rewrite dict_get_set_other by exact Hne; exact Hk).
      exact (IH _ _ _ _ Hnd' H k x Hk').
Qed.

Lemma apply_if_any_through :
  forall (d : option (dict transform)) (data data' : dict Py.ndarray)
         (self self' : t),
  distinct_keys d ->
  apply_if_any d data self = Returns data' self' ->
  forall k x, dict_get data k = Some x ->
  exists y, through d k x = Some y /\ dict_get data' k = Some y.
Proof.
  intros [d |] data data' self self' Hnd H k x Hk.
  - exact (apply_all_through d data data' self self' Hnd H k x Hk).
  - cbn in H. injection H as <- _. exists x. split; [reflexivity | exact Hk].
Qed.

Lemma slice_each_get : forall (fd d : dict Py.ndarray) (ids : list Z),
  slice_each fd ids = Some d ->
  forall k X, dict_get fd k = Some X ->
  exists x, Py.index X ids = Some x /\ dict_get d k = Some x.
Proof.
  induction fd as [| [k0 X0] fd IH]; intros d ids H k X Hk; cbn in *.
  - discriminate.
  - destruct (Utils.slice_array X0 ids) as [Y |] eqn:HY; [| discriminate].
    destruct (slice_each fd ids) as [d' |] eqn:Hd; [| discriminate].
    injection H as <-. cbn.
    destruct (String.eqb k k0).
    + injection Hk as <-. exists Y. split; [exact HY | reflexivity].
    + exact (IH d' ids Hd k X Hk).
Qed.

(** X13.  A worker's turn that goes on has put one feed dict behind what
    the data queue held, and for every key of the dataset its value in that
    feed dict is the slice of the dataset's value by the index batch,
    passed first through the augmentation registered for the key, if any,
    and then through the preprocessing registered for it, if any. *)
Theorem worker_augments_then_preprocesses :
  forall (self self' : t) (ids : list Z) (q' : Py.Queue (list Z)),
  coord_should_stop self = false -> interrupted self = false ->
  Py.get (batch_ids_queue self) = Some (Py.Item ids, q') ->
  NoDup (map fst (feed_dict self)) ->
  distinct_keys (daug_dict self) -> distinct_keys (dprep_dict self) ->
  fill_feed_dict_queue_turn self = Returns Continue self' ->
  exists data,
    Py.items (feed_dict_queue self') =
      Py.items (feed_dict_queue self) ++ [Py.Item data] /\
    batch_ids_queue self' = q' /\
    forall k X, dict_get (feed_dict self) k = Some X ->
      exists x a p,
        Py.index X ids = Some x /\
        through (daug_dict self) k x = Some a /\
        through (dprep_dict self) k a = Some p /\
        dict_get data k = Some p.
Proof.
  intros self self' ids q' Hstop Hint Hget Hfd Hda Hdp H.
  pose proof (worker_turn_on_a_batch self ids q' Hstop Hint Hget) as Hw.
  rewrite H in Hw. destruct Hw as (d0 & d1 & d2 & fq' & H0 & H1 & H2 & Hput & ->).
  exists d2. split; [| split].
  - unfold Py.put in Hput. destruct (Py.full (feed_dict_queue self));
      [discriminate |].
    injection Hput as <-. destruct self; reflexivity.
  - destruct self; reflexivity.
  - intros k X Hk.
    assert (Hs : slice_each (feed_dict self) ids = Some d0).
    { pose proof (retrieve_data_slices ids (with_batch_ids_queue self q')) as Hr.
      rewrite H0 in Hr.
      assert (Hfd' : NoDup (map fst (feed_dict (with_batch_ids_queue self q'))))
        by (destruct self; exact Hfd).
      specialize (Hr Hfd').
      replace (feed_dict (with_batch_ids_queue self q')) with (feed_dict self)
        in Hr by (destruct self; reflexivity).
      destruct (slice_each (feed_dict self) ids); [| discriminate].
      now injection Hr as <-. }
    destruct (slice_each_get _ _ _ Hs k X Hk) as (x & Hx & Hgx).
    destruct (apply_if_any_through _ _ _ _ _ Hda H1 k x Hgx) as (a & Ha & Hga).
    destruct (apply_if_any_through _ _ _ _ _ Hdp H2 k a Hga) as (p & Hp & Hgp).
    exists x, a, p. repeat split; assumption.
Qed.

(** The statement above at a worker given the rows 0 and 1 of four samples
    whose inputs are doubled by the augmentation and then shifted by the
    preprocessing. *)
Lemma worker_doubles_then_shifts :
  exists data x a p,
    Py.items (feed_dict_queue (state_of (fill_feed_dict_queue_turn transforms_queued))) =
      Py.items (feed_dict_queue transforms_queued) ++ [Py.Item data] /\
    Py.index (X_of 4) [0; 1] = Some x /\
    through (daug_dict transforms_queued) inputs_key x = Some a /\
    through (dprep_dict transforms_queued) inputs_key a = Some p /\
    dict_get data inputs_key = Some p /\
    p = Py.Vec [1; 3].
Proof.
  destruct (worker_augments_then_preprocesses transforms_queued
              (state_of (fill_feed_dict_queue_turn transforms_queued))
              [0; 1] (Py.mkQueue 32 []))
    as (data & Hq & _ & Hall);
    try (vm_compute; reflexivity).
  - cbn. repeat constructor; cbn; intuition discriminate.
  - cbn. repeat constructor; cbn; intuition discriminate.
  - cbn. repeat constructor; cbn; intuition discriminate.
  - destruct (Hall inputs_key (X_of 4) eq_refl) as (x & a & p & Hx & Ha & Hp & Hg).
    exists data, x, a, p. repeat split; try assumption.
    vm_compute in Hx. injection Hx as <-.
    vm_compute in Ha. injection Ha as <-.
    vm_compute in Hp. injection Hp as <-. reflexivity.
Defined.

(** ** Construction *)

(** X14.  With [ensure_data_order] the constructor overrides what was
    passed for [num_threads] and [max_queue]: both queues are created with
    capacity 1, and [start] then spawns the index producer and exactly one
    worker.  Without it both arguments are kept. *)
Theorem strict_order_has_one_worker :
  forall (draw : nat -> list Z -> list Z)
         (balanced : Z -> Z -> Py.ndarray -> list (list Z))
         (k : key) (first : Py.ndarray) (others : dict Py.ndarray)
         (coord : bool) (bsz nthreads mq : Z) (sh cont order rs : bool)
         (dprep daug : option (dict transform)) (ia : option (list Z)),
  exists self started,
    init draw balanced ((k, first) :: others) coord bsz nthreads mq sh cont
         order dprep daug ia false = Returns tt self /\
    num_threads self = (if order then 1 else nthreads) /\
    Py.maxsize (batch_ids_queue self) = (if order then 1 else mq) /\
    Py.maxsize (feed_dict_queue self) = (if order then 1 else mq) /\
    Py.items (batch_ids_queue self) = [] /\
    Py.items (feed_dict_queue self) = [] /\
    threads self = None /\
    start rs self = Returns tt started /\
    (order = true ->
     threads started =
       Some [mkThread fill_batch_ids_queue_target Alive;
             mkThread fill_feed_dict_queue_target Alive]).
Proof.
  intros. unfold init. cbn [Utils.get_dict_first_element].
  unfold reset_batches, make_batches, shuffle_samples, start, clear_queues.
  run_m.
  destruct ia as [a |]; destruct sh; destruct order; destruct rs; cbn;
    eexists; eexists; repeat split; intros; try discriminate; reflexivity.
Qed.

(** X15.  With [balanced_classes] and without shuffling, a construction
    that succeeds has read the second value of the feed dict, an array of
    at least two axes, taken its argmax along axis 1, selected from the
    result the labels of [index_array], and asked
    [utils.make_balanced_batches] for the plan of these labels; the cursor
    is at -1. *)
Theorem balanced_construction_reads_labels :
  forall (draw : nat -> list Z -> list Z)
         (balanced : Z -> Z -> Py.ndarray -> list (list Z))
         (fd : dict Py.ndarray) (coord : bool) (bsz nthreads mq : Z)
         (cont order : bool) (dprep daug : option (dict transform))
         (ia : option (list Z)) (self : t),
  init draw balanced fd coord bsz nthreads mq false cont order dprep daug ia
       true = Returns tt self ->
  exists y labels picked,
    nth_error (values fd) 1 = Some y /\
    (2 <= Py.ndim y)%nat /\
    Py.argmax1 y = inr labels /\
    Py.index labels (index_array self) = Some picked /\
    batches self = balanced (n_samples self) bsz picked /\
    batch_index self = -1.
Proof.
  intros until self. intros H. unfold init in H.
  destruct (Utils.get_dict_first_element fd) as [first |]; [| discriminate].
  unfold reset_balanced_batches, make_balanced_batches, second_value in H.
  run_m in H.
  assert (Hdim : forall y labels, Py.argmax1 y = inr labels ->
                 (2 <= Py.ndim y)%nat).
  { intros [xs | rows | inner blocks] labels Hl; cbn in Hl |- *;
      [discriminate | lia | destruct inner; [discriminate | cbn; lia]]. }
  destruct ia as [a |]; read_fields in H;
    (destruct (nth_error (values fd) 1) as [y |] eqn:Hy; [| discriminate];
     destruct (Py.argmax1 y) as [e | labels] eqn:Harg; [discriminate |];
     exists y, labels).
  - destruct (Py.index labels a) as [picked |] eqn:Ht; [| discriminate].
    injection H as <-. exists picked. repeat split; eauto.
  - destruct (Py.index labels (Py.arange (Py.len first))) as [picked |] eqn:Ht;
      [| discriminate].
    injection H as <-. exists picked. repeat split; eauto.
Qed.

(** The statement above at four samples with their one-hot labels. *)
Lemma balanced_sample_reads_labels :
  exists y labels picked,
    nth_error (values (dataset 4)) 1 = Some y /\
    (2 <= Py.ndim y)%nat /\
    Py.argmax1 y = inr labels /\
    Py.index labels (index_array balanced_sample) = Some picked /\
    batches balanced_sample =
      any_balanced (n_samples balanced_sample) 2 picked /\
    batch_index balanced_sample = -1.
Proof.
  apply (balanced_construction_reads_labels no_shuffle any_balanced
           (dataset 4) false 2 8 32 false false None None None balanced_sample).
  vm_compute; reflexivity.
Defined.
